(** * A verified model of the browser engine's core

    Shallow embedding of the parts of [browser_engine] that the
    specification's testable properties talk about: the HTTP/1.1 client
    (request framing, body decoding, cookie jar, response cache), the
    frame loader with its redirect budget, the per-tab event handling
    of the main thread, the scripting bridge's [postMessage], and the
    block / inline layout engine.

    The development is in two parts.  Part I gives the model, one module
    per source package; Part II states and proves the properties. *)

From Stdlib Require Import ZArith QArith Qabs Qround Qminmax Lqa Lia Bool List.
From Stdlib Require Import Ascii String DecimalString.
From stdpp Require Import base option gmap strings list fin_maps.

Local Open Scope string_scope.
Local Open Scope Z_scope.
Set Warnings "-register-all".

(* ===================================================================== *)
(** * Part I -- the model                                                  *)
(* ===================================================================== *)

(** ** Python values the code relies on

    Byte strings and (ASCII) text are both [string]; the functions below
    model the [str] methods and builtins the source calls. *)
Module Py.

(** A Python exception, by class and message. *)
Inductive exn : Type :=
| Exception (msg : string)
| ValueError (msg : string)
| KeyError (key : string).

(** The outcome of evaluating code that may raise. *)
Inductive result (A : Type) : Type :=
| Ok (a : A)
| Raise (e : exn).
Arguments Ok {A} a.
Arguments Raise {A} e.

Definition bind {A B} (r : result A) (k : A -> result B) : result B :=
  match r with
  | Ok a => k a
  | Raise e => Raise e
  end.

Definition of_option {A} (o : option A) (e : exn) : result A :=
  match o with
  | Some a => Ok a
  | None => Raise e
  end.

(** [str.isspace] on one (ASCII) character: TAB..CR, FS..US and space. *)
Definition isspace (c : ascii) : bool :=
  let n := nat_of_ascii c in
  (((9 <=? n) && (n <=? 13)) || ((28 <=? n) && (n <=? 32)))%nat.

Fixpoint rev_onto (s acc : string) : string :=
  match s with
  | EmptyString => acc
  | String c s' => rev_onto s' (String c acc)
  end.

Definition rev (s : string) : string := rev_onto s EmptyString.

Fixpoint lstrip (s : string) : string :=
  match s with
  | EmptyString => EmptyString
  | String c s' => if isspace c then lstrip s' else s
  end.

Definition rstrip (s : string) : string := rev (lstrip (rev s)).

(** [s.strip()] *)
Definition strip (s : string) : string := rstrip (lstrip s).

Definition lower_char (c : ascii) : ascii :=
  let n := nat_of_ascii c in
  if ((65 <=? n) && (n <=? 90))%nat then ascii_of_nat (n + 32) else c.

(** [s.lower()] (and [s.casefold()]) on ASCII text. *)
Fixpoint lower (s : string) : string :=
  match s with
  | EmptyString => EmptyString
  | String c s' => String (lower_char c) (lower s')
  end.

(** [s.startswith(p)] *)
Fixpoint startswith (p s : string) : bool :=
  match p, s with
  | EmptyString, _ => true
  | String a p', String b s' => if Ascii.eqb a b then startswith p' s' else false
  | String _ _, EmptyString => false
  end.

(** [sub in s] *)
Fixpoint contains (sub s : string) : bool :=
  startswith sub s ||
  match s with
  | EmptyString => false
  | String _ s' => contains sub s'
  end.

(** Drop the first [n] characters: [s[n:]]. *)
Fixpoint drop (n : nat) (s : string) : string :=
  match n, s with
  | O, _ => s
  | S n', String _ s' => drop n' s'
  | S _, EmptyString => EmptyString
  end.

(** Keep the first [n] characters: [s[:n]]. *)
Fixpoint take (n : nat) (s : string) : string :=
  match n, s with
  | O, _ => EmptyString
  | S n', String c s' => String c (take n' s')
  | S _, EmptyString => EmptyString
  end.

(** [s[:-k]] for a positive literal [k]. *)
Definition drop_last (k : nat) (s : string) : string :=
  take (String.length s - k) s.

(** [s.split(sep, 1)] for a non-empty separator: [None] when [sep] does
    not occur (the one-element list), else the text before and after
    the first occurrence. *)
Fixpoint split_once (sep s : string) : option (string * string) :=
  if startswith sep s then Some (EmptyString, drop (String.length sep) s)
  else
    match s with
    | EmptyString => None
    | String c s' =>
        match split_once sep s' with
        | Some (a, b) => Some (String c a, b)
        | None => None
        end
    end.

(** [s.split(c)] for a one-character separator: never empty. *)
Fixpoint split_char (sep : ascii) (s : string) : list string :=
  match s with
  | EmptyString => [EmptyString]
  | String c s' =>
      if Ascii.eqb c sep then EmptyString :: split_char sep s'
      else
        match split_char sep s' with
        | w :: ws => String c w :: ws
        | [] => [String c EmptyString]
        end
  end.

(** [s.split()]: the maximal runs of non-whitespace characters. *)
Fixpoint split_ws_aux (s cur : string) : list string :=
  match s with
  | EmptyString =>
      match cur with EmptyString => [] | _ => [rev cur] end
  | String c s' =>
      if isspace c then
        match cur with
        | EmptyString => split_ws_aux s' EmptyString
        | _ => rev cur :: split_ws_aux s' EmptyString
        end
      else split_ws_aux s' (String c cur)
  end.

Definition split_ws (s : string) : list string := split_ws_aux s EmptyString.

(** The value of one digit in the given base, if it is one. *)
Definition digit_val (base : Z) (c : ascii) : option Z :=
  let n := Z.of_nat (nat_of_ascii c) in
  let v :=
    if (48 <=? n) && (n <=? 57) then Some (n - 48)
    else if (97 <=? n) && (n <=? 122) then Some (n - 87)
    else if (65 <=? n) && (n <=? 90) then Some (n - 55)
    else None in
  match v with
  | Some d => if d <? base then Some d else None
  | None => None
  end.

(** The digits of an integer literal: underscores may separate digits
    singly.  [acc] is [None] until the first digit has been read;
    [sep_ok] says whether an underscore may come next. *)
Fixpoint digits (base : Z) (s : string) (acc : option Z) (sep_ok : bool)
  : option Z :=
  match s with
  | EmptyString => if sep_ok then acc else None
  | String c s' =>
      if Ascii.eqb c "_" then
        if sep_ok then
          match s' with
          | EmptyString => None
          | _ => digits base s' acc false
          end
        else None
      else
        match digit_val base c with
        | Some d =>
            digits base s' (Some (base * default 0 acc + d)) true
        | None => None
        end
  end.

Definition unsigned_literal (base : Z) (s : string) : option Z :=
  if (base =? 16) && (startswith "0x" s || startswith "0X" s)
  then match drop 2 s with
       | String "_" s' => digits base s' None false
       | s' => digits base s' None false
       end
  else digits base s None false.

(** [int(s, base)] for [base] 10 or 16 on ASCII text; [None] stands for
    [ValueError]. *)
Definition int_of (base : Z) (s : string) : option Z :=
  match strip s with
  | String "-" s' => Z.opp <$> unsigned_literal base s'
  | String "+" s' => unsigned_literal base s'
  | s' => unsigned_literal base s'
  end.

(** [f.readline()] on the bytes still to be read: the line with its
    terminating newline (or all that is left), and the rest. *)
Fixpoint readline (s : string) : string * string :=
  match s with
  | EmptyString => (EmptyString, EmptyString)
  | String c s' =>
      if Ascii.eqb c "010" then (String c EmptyString, s')
      else let '(l, r) := readline s' in (String c l, r)
  end.

(** [f.read(n)]: at most [n] bytes; a negative [n] reads to the end. *)
Definition read (n : Z) (s : string) : string * string :=
  if n <? 0 then (s, EmptyString)
  else (take (Z.to_nat n) s, drop (Z.to_nat n) s).

End Py.

(** ** A state monad with exceptions

    Python code mutates process-wide objects and may raise half-way: the
    mutations made before the [raise] stay.  [M S A] threads a store of
    type [S] and returns a value or an exception together with the store
    as it then is. *)
Module Run.
Import Py.

Definition M (S A : Type) : Type := S -> result A * S.

Definition ret {S A} (a : A) : M S A := fun s => (Ok a, s).

Definition raise {S A} (e : exn) : M S A := fun s => (Raise e, s).

Definition mbind {S A B} (m : M S A) (k : A -> M S B) : M S B :=
  fun s =>
    match m s with
    | (Ok a, s') => k a s'
    | (Raise e, s') => (Raise e, s')
    end.

Definition gets {S A} (f : S -> A) : M S A := fun s => (Ok (f s), s).

Definition modify {S} (f : S -> S) : M S unit := fun s => (Ok tt, f s).

Definition lift {S A} (r : result A) : M S A := fun s => (r, s).

(** [try: m except Exception: h] *)
Definition try_except {S A} (m : M S A) (h : exn -> M S A) : M S A :=
  fun s =>
    match m s with
    | (Ok a, s') => (Ok a, s')
    | (Raise e, s') => h e s'
    end.

Definition when {S} (b : bool) (m : M S unit) : M S unit :=
  if b then m else ret tt.

End Run.

Declare Scope run_scope.
Delimit Scope run_scope with run.
Notation "x <- m ;; k" := (Run.mbind m (fun x => k))
  (at level 100, m at next level, right associativity) : run_scope.
Notation "m ;;; k" := (Run.mbind m (fun _ => k))
  (at level 100, right associativity) : run_scope.

(** ** networking: URLs, cookie jar, response cache, HTTP/1.1 client *)
Module Net.
Import Py Run.
Local Open Scope run_scope.

Definition CR : ascii := "013"%char.
Definition LF : ascii := "010"%char.
Definition CRLF : string := String CR (String LF EmptyString).

(** [str(n)] for an integer. *)
Definition str_Z (n : Z) : string :=
  DecimalString.NilZero.string_of_int (Z.to_int n).

(** Truth value of an optional string: [None] and [""] are false. *)
Definition truthy (o : option string) : bool :=
  match o with
  | Some (String _ _) => true
  | _ => false
  end.

(** *** protocols/base_url.py *)

(** The fields of a [URL] object after construction.  [user_agent] is
    [UserAgent().random], drawn when the object is built. *)
Record URL : Type := mkURL {
  schema : string;
  raw_url : string;
  host : option string;
  path : string;
  port : option Z;
  user_agent : string;
}.

Definition str_opt (o : option string) : string := default "None" o.

Definition str_port (o : option Z) : string :=
  match o with
  | Some p => str_Z p
  | None => "None"
  end.

(** [URL.__str__] *)
Definition URL_str (u : URL) : string :=
  let port_part := ":" +:+ str_port (port u) in
  if String.eqb (schema u) "https" && bool_decide (port u = Some 443)
  then schema u +:+ "://" +:+ str_opt (host u) +:+ path u
  else if String.eqb (schema u) "http" && bool_decide (port u = Some 80)
  then schema u +:+ "://" +:+ str_opt (host u) +:+ path u
  else if String.eqb (schema u) "file"
  then schema u +:+ "://" +:+ path u
  else schema u +:+ "://" +:+ str_opt (host u) +:+ port_part +:+ path u.

(** [URL.origin] *)
Definition origin (u : URL) : string :=
  match port u with
  | None => schema u +:+ "://" +:+ str_opt (host u)
  | Some p => schema u +:+ "://" +:+ str_opt (host u) +:+ ":" +:+ str_Z p
  end.

(** What [request] returns: [(status, headers, body, csp)].  A
    [ContentSecurityPolicy] object is determined by the header text it
    was built from, which stands for it here. *)
Record reply : Type := mkReply {
  status : Z;
  headers : gmap string string;
  body : string;
  csp : option string;
}.

(** *** cache_manager.py *)

(** One [_cache] value: the reply and [expires_at].  Clock readings
    ([time.time()]) are numbers of ticks. *)
Record entry : Type := mkEntry {
  cached : reply;
  expires_at : Z;
}.

(** [CacheManager.get], at clock reading [now]. *)
Definition CacheManager_get (now : Z) (url_str : string)
    (_cache : gmap string entry) : option reply * gmap string entry :=
  match _cache !! url_str with
  | None => (None, _cache)
  | Some e =>
      if expires_at e <=? now then (None, delete url_str _cache)
      else (Some (cached e), _cache)
  end.

(** The [for directive in cache_control.split(",")] loop of
    [CacheManager.set]: the [max_age] it leaves, or the [ValueError] of
    [int]. *)
Fixpoint find_max_age (directives : list string) : result (option Z) :=
  match directives with
  | [] => Ok None
  | directive :: rest =>
      let directive := strip directive in
      if startswith "max-age=" directive then
        match split_once "=" directive with
        | Some (_, v) =>
            bind (of_option (int_of 10 v)
                    (ValueError "invalid literal for int()"))
                 (fun n => Ok (Some n))
        | None => Raise (Exception "list index out of range")
        end
      else find_max_age rest
  end.

(** [CacheManager.set], at clock reading [now]. *)
Definition CacheManager_set (now : Z) (url_str : string) (r : reply)
    (_cache : gmap string entry) : result unit * gmap string entry :=
  let cache_control := lower (default "" (headers r !! "cache-control")) in
  if contains "no-store" cache_control then (Ok tt, _cache)
  else
    match find_max_age (split_char "," cache_control) with
    | Raise e => (Raise e, _cache)
    | Ok None => (Ok tt, _cache)
    | Ok (Some max_age) =>
        (Ok tt, <[url_str := mkEntry r (now + max_age)]> _cache)
    end.

(** *** The process-wide objects of the networking package *)

(** What the client does on the network, oldest first. *)
Inductive event : Type :=
| Opened (fd : nat)
| Wrapped (fd : nat) (server_hostname : string)
| Connected (fd : nat) (host : string) (port : Z)
| Sent (fd : nat) (data : string)
| Closed (fd : nat).

(** [COOKIE_JAR] (host to cookie and parameters), [cache_manager._cache],
    [HTTPBase._socket_map], the sockets already closed ([fileno() == -1]),
    the next fresh socket, the bytes each socket still has to deliver and
    the log of network events. *)
Record state : Type := mkState {
  COOKIE_JAR : gmap string (string * gmap string string);
  _cache : gmap string entry;
  _socket_map : gmap (string * option string * option Z) nat;
  closed : gset nat;
  next_fd : nat;
  inbox : gmap nat string;
  wire : list event;
}.

Definition set_jar (j : gmap string (string * gmap string string))
    (st : state) : state :=
  mkState j (_cache st) (_socket_map st) (closed st)
          (next_fd st) (inbox st) (wire st).

Definition set_cache (c : gmap string entry) (st : state) : state :=
  mkState (COOKIE_JAR st) c (_socket_map st) (closed st)
          (next_fd st) (inbox st) (wire st).

Definition set_socket_map (m : gmap (string * option string * option Z) nat)
    (st : state) : state :=
  mkState (COOKIE_JAR st) (_cache st) m (closed st)
          (next_fd st) (inbox st) (wire st).

Definition set_closed (c : gset nat) (st : state) : state :=
  mkState (COOKIE_JAR st) (_cache st) (_socket_map st) c
          (next_fd st) (inbox st) (wire st).

Definition set_next_fd (n : nat) (st : state) : state :=
  mkState (COOKIE_JAR st) (_cache st) (_socket_map st) (closed st)
          n (inbox st) (wire st).

Definition set_inbox (i : gmap nat string) (st : state) : state :=
  mkState (COOKIE_JAR st) (_cache st) (_socket_map st) (closed st)
          (next_fd st) i (wire st).

Definition emit (e : event) (st : state) : state :=
  mkState (COOKIE_JAR st) (_cache st) (_socket_map st) (closed st)
          (next_fd st) (inbox st) (wire st ++ [e]).

(** The world outside: whether [connect] succeeds, the bytes a socket
    yields (up to end of file) once a request has been sent on it, and
    [gzip.decompress] and [bytes.decode("utf-8", errors="ignore")]. *)
Class World : Type := {
  connect : nat -> string -> Z -> option exn;
  respond : nat -> string -> string;
  gunzip : string -> result string;
  decode_ignore : string -> string;
}.

(** *** protocols/http_base.py *)

(** The request [_send_http_request] writes: request line, header
    fields in the order they are appended, and body. *)
Record request : Type := mkRequest {
  req_method : string;
  req_path : string;
  req_headers : list (string * string);
  req_body : string;
}.

Definition header_line (h : string * string) : string :=
  fst h +:+ ": " +:+ snd h +:+ CRLF.

(** The text of a request as [req] spells it. *)
Definition render (r : request) : string :=
  req_method r +:+ " " +:+ req_path r +:+ " HTTP/1.1" +:+ CRLF
  +:+ String.concat "" (header_line <$> req_headers r)
  +:+ CRLF +:+ req_body r.

(** [method = "POST" if payload else "GET"] *)
Definition http_method (payload : option string) : string :=
  if truthy payload then "POST" else "GET".

(** The value [allow_cookie] has when the jar holds [params] for the
    host. *)
Definition allow_cookie (self : URL) (referrer : option URL)
    (params : gmap string string) (method : string) : bool :=
  match referrer with
  | Some r =>
      if String.eqb (default "none" (params !! "samesite")) "lax" then
        if negb (String.eqb method "GET")
        then bool_decide (host self = host r)
        else true
      else true
  | None => true
  end.

(** The [Cookie] field [_send_http_request] appends, if any. *)
Definition cookie_field (self : URL) (referrer : option URL)
    (method : string) (jar : gmap string (string * gmap string string))
  : list (string * string) :=
  match host self ≫= (jar !!.) with
  | Some (cookie, params) =>
      if allow_cookie self referrer params method
      then [("Cookie", cookie)]
      else []
  | None => []
  end.

(** The request [_send_http_request] builds. *)
Definition build_request (self : URL) (referrer : option URL)
    (payload : option string)
    (jar : gmap string (string * gmap string string)) : request :=
  let method := http_method payload in
  let fixed :=
    [("Host", str_opt (host self));
     ("User-Agent", user_agent self);
     ("Connection", "keep-alive");
     ("Accept-Encoding", "gzip")] in
  let referer :=
    match referrer with
    | Some r => [("Referer", URL_str r)]
    | None => []
    end in
  let cookie := cookie_field self referrer method jar in
  if truthy payload then
    let p := default "" payload in
    mkRequest method (path self)
      (fixed ++ referer ++ cookie ++
       [("Content-Type", "application/x-www-form-urlencoded");
        ("Content-Length", str_Z (Z.of_nat (String.length p)))])
      p
  else
    mkRequest method (path self) (fixed ++ referer ++ cookie) "".

(** *** protocols: the URL classes and url_factory.py *)

(** [URL._parse_host_and_path] of the base class, then the subclass's
    default port. *)
Definition http_like (schema raw : string) (default_port : Z)
    (ua : string) : result URL :=
  let raw' := if contains "/" raw then raw else raw +:+ "/" in
  match split_once "/" raw' with
  | None => Raise (ValueError "not enough values to unpack")
  | Some (host, path) =>
      let path := "/" +:+ path in
      match split_once ":" host with
      | Some (host, port) =>
          bind (of_option (int_of 10 port)
                  (ValueError "invalid literal for int()")) (fun port =>
          Ok (mkURL schema raw (Some host) path (Some port) ua))
      | None => Ok (mkURL schema raw (Some host) path (Some default_port) ua)
      end
  end.

(** [HTTPSURL(schema, raw_url)] *)
Definition HTTPSURL (schema raw : string) (ua : string) : result URL :=
  http_like schema raw 443 ua.

(** Modelled from the spec: [http_url.py] is not part of the sources at
    hand; "port (default 80/443)". *)
Definition HTTPURL (schema raw : string) (ua : string) : result URL :=
  http_like schema raw 80 ua.

(** [FileURL(schema, raw_url)] *)
Definition FileURL (schema raw : string) (ua : string) : URL :=
  mkURL schema raw None raw None ua.

(** [AboutBlankURL("about", "blank")] *)
Definition AboutBlankURL (ua : string) : URL :=
  mkURL "about" "blank" (Some "blank") "/" None ua.

(** [URLFactory.parse]; [ua] is the user agent drawn for the new
    object. *)
Definition URLFactory_parse (ua : string) (url : string) : result URL :=
  if String.eqb url "about:blank" then Ok (AboutBlankURL ua)
  else
    match split_once "://" url with
    | None => Raise (ValueError "not enough values to unpack")
    | Some (schema, rest) =>
        if String.eqb schema "http" then HTTPURL schema rest ua
        else if String.eqb schema "https" then HTTPSURL schema rest ua
        else if String.eqb schema "file" then Ok (FileURL schema rest ua)
        else Raise (ValueError ("Unsupported schema: " +:+ schema))
    end.

Section Client.
Context `{World}.

(** [s.send(data)]: the bytes go out and the socket gets the answer to
    deliver. *)
Definition sock_send (s : nat) (data : string) : M state unit :=
  modify (fun st =>
    emit (Sent s data) (set_inbox (<[s := respond s data]> (inbox st)) st)).

(** [HTTPBase._send_http_request] *)
Definition _send_http_request (self : URL) (s : nat)
    (referrer : option URL) (payload : option string) : M state unit :=
  jar <- gets COOKIE_JAR ;;
  sock_send s (render (build_request self referrer payload jar)).

Definition _get_socket_key (self : URL) : string * option string * option Z :=
  (schema self, host self, port self).

(** [HTTPBase._get_socket] *)
Definition _get_socket (self : URL) : M state (option nat) :=
  m <- gets _socket_map ;;
  c <- gets closed ;;
  match m !! _get_socket_key self with
  | Some s =>
      if bool_decide (s ∈ c)
      then modify (set_socket_map (delete (_get_socket_key self) m)) ;;;
           ret None
      else ret (Some s)
  | None => ret None
  end.

(** [HTTPBase._set_socket] *)
Definition _set_socket (self : URL) (s : nat) : M state unit :=
  modify (fun st =>
    set_socket_map (<[_get_socket_key self := s]> (_socket_map st)) st).

(** [HTTPBase._remove_socket] *)
Definition _remove_socket (self : URL) : M state unit :=
  modify (fun st =>
    set_socket_map (delete (_get_socket_key self) (_socket_map st)) st).

(** [HTTPBase._open_socket] *)
Definition _open_socket : M state nat :=
  fun st =>
    (Ok (next_fd st), emit (Opened (next_fd st)) (set_next_fd (S (next_fd st)) st)).

(** [s.connect((self.host, self.port))] *)
Definition sock_connect (self : URL) (s : nat) : M state unit :=
  match host self, port self with
  | Some h, Some p =>
      match connect s h p with
      | Some e => raise e
      | None => modify (emit (Connected s h p))
      end
  | _, _ => raise (Exception "TypeError")
  end.

(** [s.close()] *)
Definition sock_close (s : nat) : M state unit :=
  modify (fun st => emit (Closed s) (set_closed ({[s]} ∪ closed st) st)).

(** The bytes [s.makefile("rb")] will read from. *)
Definition makefile (s : nat) : M state string :=
  gets (fun st => default "" (inbox st !! s)).

(** [response.close()], leaving [rest] unread on the socket. *)
Definition close_file (s : nat) (rest : string) : M state unit :=
  modify (fun st => set_inbox (<[s := rest]> (inbox st)) st).

(** The header loop of [_read_http_response]; every turn reads a line,
    so [fuel] above the length of [stream] is never used up. *)
Fixpoint read_headers (fuel : nat) (stream : string)
    (headers : gmap string string) : result (gmap string string * string) :=
  match fuel with
  | O => Raise (Exception "out of fuel")
  | S fuel' =>
      let '(line, rest) := readline stream in
      if String.eqb line CRLF then Ok (headers, rest)
      else
        match split_once ":" line with
        | Some (h, v) => read_headers fuel' rest (<[lower h := strip v]> headers)
        | None => Raise (ValueError "not enough values to unpack")
        end
  end.

(** The [for param in rest.split(";")] loop of the Set-Cookie
    handling. *)
Fixpoint cookie_params (ps : list string) (params : gmap string string)
  : gmap string string :=
  match ps with
  | [] => params
  | param :: ps' =>
      let '(param, value) :=
        match split_once "=" param with
        | Some (p, v) => (p, v)
        | None => (param, "true")
        end in
      cookie_params ps' (<[lower (strip param) := lower value]> params)
  end.

(** The value stored in [COOKIE_JAR] for a [Set-Cookie] header. *)
Definition parse_set_cookie (cookie : string) : string * gmap string string :=
  match split_once ";" cookie with
  | Some (c, rest) => (c, cookie_params (split_char ";" rest) ∅)
  | None => (cookie, ∅)
  end.

(** The chunk loop of [_read_http_response]; every turn reads a line,
    so [fuel] above the length of [stream] is never used up. *)
Fixpoint read_chunks (fuel : nat) (stream body_bytes : string)
  : result (string * string) :=
  match fuel with
  | O => Raise (Exception "out of fuel")
  | S fuel' =>
      let '(chunk_size_line, rest) := readline stream in
      match int_of 16 (strip chunk_size_line) with
      | None => Raise (ValueError "invalid literal for int() with base 16")
      | Some chunk_size =>
          if chunk_size =? 0 then
            let '(_, rest) := readline rest in
            Ok (body_bytes, rest)
          else
            let '(chunk_data, rest) := read chunk_size rest in
            let '(_, rest) := readline rest in
            read_chunks fuel' rest (body_bytes +:+ chunk_data)
      end
  end.

(** Reading the body ([_read_http_response], "Body" block): the bytes
    of the body and what is left unread. *)
Definition read_body (headers : gmap string string) (stream : string)
  : result (string * string) :=
  if String.eqb (lower (default "" (headers !! "transfer-encoding"))) "chunked"
  then read_chunks (S (String.length stream)) stream ""
  else
    match headers !! "content-length" with
    | Some v =>
        match int_of 10 v with
        | Some content_length => Ok (read content_length stream)
        | None => Raise (ValueError "invalid literal for int()")
        end
    | None => Ok (stream, "")
    end.

(** [status_line.split(" ", 2)] when it has three parts. *)
Definition split_status (status_line : string)
  : option (string * string * string) :=
  match split_once " " status_line with
  | Some (version, r) =>
      match split_once " " r with
      | Some (status, explanation) => Some (version, status, explanation)
      | None => None
      end
  | None => None
  end.

(** [HTTPBase._read_http_response] *)
Definition _read_http_response (self : URL) (s : nat)
    (referrer : option URL) (payload : option string) : M state reply :=
  stream <- makefile s ;;
  let '(status_line, rest) := readline stream in
  sr <- (if String.eqb (strip status_line) ""
         then
           close_file s rest ;;;
           sock_close s ;;;
           _remove_socket self ;;;
           s' <- _open_socket ;;
           sock_connect self s' ;;;
           _set_socket self s' ;;;
           _send_http_request self s' referrer payload ;;;
           stream' <- makefile s' ;;
           ret (s', readline stream')
         else ret (s, (status_line, rest))) ;;
  let '(s, (status_line, rest)) := sr in
  match split_status status_line with
  | None => raise (ValueError "Invalid HTTP status line")
  | Some (version, status, explanation) =>
      hr <- lift (read_headers (S (String.length rest)) rest ∅) ;;
      let '(headers, rest) := hr in
      match headers !! "set-cookie", host self with
      | Some cookie, Some h =>
          modify (fun st =>
            set_jar (<[h := parse_set_cookie cookie]> (COOKIE_JAR st)) st)
      | _, _ => ret tt
      end ;;;
      br <- lift (read_body headers rest) ;;
      let '(body, rest) := br in
      close_file s rest ;;;
      body <- (if String.eqb (lower (default "" (headers !! "content-encoding"))) "gzip"
               then lift (gunzip body) else ret body) ;;
      let body := decode_ignore body in
      when (String.eqb (lower (default "" (headers !! "connection"))) "close")
           (sock_close s ;;; _remove_socket self) ;;;
      let csp :=
        match headers !! "content-security-policy" with
        | Some (String c h) => Some (String c h)
        | _ => None
        end in
      status <- lift (of_option (int_of 10 status)
                        (ValueError "invalid literal for int()")) ;;
      ret (mkReply status headers body csp)
  end.

(** *** https_url.py *)

(** [HTTPSURL.request]; [now] is the clock reading in
    [cache_manager.get] and [now'] the one in [cache_manager.set]. *)
Definition HTTPSURL_request (now now' : Z) (self : URL)
    (referrer : option URL) (payload : option string) : M state reply :=
  let url_str := schema self +:+ "://" +:+ raw_url self in
  c <- gets _cache ;;
  let '(cached, c') := CacheManager_get now url_str c in
  modify (set_cache c') ;;;
  match cached with
  | Some r => ret r
  | None =>
      so <- _get_socket self ;;
      s <- match so with
           | Some s => ret s
           | None =>
               s <- _open_socket ;;
               modify (emit (Wrapped s (str_opt (host self)))) ;;;
               sock_connect self s ;;;
               _set_socket self s ;;;
               ret s
           end ;;
      _send_http_request self s referrer payload ;;;
      r <- _read_http_response self s referrer payload ;;
      when (String.eqb (lower (default "" (headers r !! "connection"))) "close")
           (sock_close s ;;; _remove_socket self) ;;;
      c <- gets _cache ;;
      let '(res, c') := CacheManager_set now' url_str r c in
      modify (set_cache c') ;;;
      lift res ;;;
      ret r
  end.

End Client.

End Net.

(** ** common: constants

    Modelled from the spec: [common/constants.py] is not part of the
    sources at hand.  The spec names the page margins [HSTEP], [VSTEP],
    the scroll step [SCROLL_STEP] and the window size without fixing
    their values, so they are parameters here. *)
Module Common.

Class Constants : Type := {
  HSTEP : Q;
  VSTEP : Q;
  WIDTH : Q;
  HEIGHT : Q;
  SCROLL_STEP : Q;
}.

End Common.

(** ** dom: the document tree *)
Module Dom.

(** [Text] and [Element] objects.  [oid] is the identity of the Python
    object (two nodes of one document never share it); [style] is the
    dictionary that [style()] fills in.  The [parent] back-reference is
    recovered from the tree. *)
Inductive Node : Type :=
| Text (oid : nat) (text : string) (style : gmap string string)
| Element (oid : nat) (tag : string) (attributes : gmap string string)
          (style : gmap string string) (children : list Node)
          (is_focus : bool).

Definition oid (n : Node) : nat :=
  match n with
  | Text i _ _ => i
  | Element i _ _ _ _ _ => i
  end.

Definition style (n : Node) : gmap string string :=
  match n with
  | Text _ _ s => s
  | Element _ _ _ s _ _ => s
  end.

Definition children (n : Node) : list Node :=
  match n with
  | Text _ _ _ => []
  | Element _ _ _ _ cs _ => cs
  end.

Definition is_focus (n : Node) : bool :=
  match n with
  | Text _ _ _ => false
  | Element _ _ _ _ _ f => f
  end.

(** [tree_to_list(tree, [])] *)
Fixpoint tree_to_list (tree : Node) : list Node :=
  tree ::
  match tree with
  | Text _ _ _ => []
  | Element _ _ _ _ cs _ =>
      (fix go (cs : list Node) : list Node :=
         match cs with
         | [] => []
         | c :: cs' => (tree_to_list c ++ go cs')%list
         end) cs
  end.

End Dom.

(** ** rendering and layout *)
Module Layout.
Import Py Dom Common.
Local Open Scope Q_scope.

(** *** rendering/font.py *)

(** A [SkiaFont], which [get_font] caches under this key. *)
Record Font : Type := get_font {
  _size : Z;
  _weight : string;
  _style : string;
}.

(** What the platform supplies: the builtin [float()], and Skia's text
    measurement and font metrics.  Floats are the rationals they denote;
    arithmetic on them is taken to be exact. *)
Class Platform : Type := {
  float : string -> option Q;
  measureText : Font -> string -> Q;
  fAscent : Font -> Q;
  fDescent : Font -> Q;
  fLeading : Font -> Q;
}.

Section Metrics.
Context `{Platform}.

(** [SkiaFont.measure] *)
Definition measure (f : Font) (text : string) : Q := measureText f text.

(** [SkiaFont.metrics("ascent")] *)
Definition ascent (f : Font) : Q := Qabs (fAscent f).

(** [SkiaFont.metrics("descent")] *)
Definition descent (f : Font) : Q := fDescent f.

(** [SkiaFont.metrics("linespace")] *)
Definition linespace (f : Font) : Q := Qabs (fAscent f) + fDescent f + fLeading f.

End Metrics.

(** [int(x)] for a float: truncation toward zero. *)
Definition int (x : Q) : Z :=
  if Qle_bool 0 x then Qfloor x else Qceiling x.

(** [a > b] *)
Definition Qgt_bool (a b : Q) : bool := negb (Qle_bool a b).

(** [sum(xs)] *)
Definition sum (xs : list Q) : Q := fold_left Qplus xs 0.

(** [max(xs)] for a non-empty sequence with first element [x]. *)
Definition max_of (x : Q) (xs : list Q) : Q := fold_left Qmax xs x.

(** [d[key]] *)
Definition getitem (d : gmap string string) (key : string) : result string :=
  of_option (d !! key) (KeyError key).

(** *** Drawing commands *)
Inductive cmd : Type :=
| DrawRect (left top right bottom : Q) (color : string)
| DrawText (x y : Q) (text : string) (font : Font) (color : string)
| DrawLine (x1 y1 x2 y2 : Q) (color : string) (thickness : Q)
| DrawOutline (left top right bottom : Q) (color : string) (thickness : Q).

(** *** Layout boxes, once laid out *)
Inductive Box : Type :=
| DocumentLayout (node : Node) (x y width height : Q) (children : list Box)
| BlockLayout (node : Node) (x y width height : Q) (children : list Box)
| LineLayout (node : Node) (x y width height : Q) (children : list Box)
| TextLayout (node : Node) (word : string) (font : Font) (x y width height : Q)
| InputLayout (node : Node) (font : Font) (x y width height : Q).

Definition box_node (b : Box) : Node :=
  match b with
  | DocumentLayout n _ _ _ _ _ | BlockLayout n _ _ _ _ _
  | LineLayout n _ _ _ _ _ | TextLayout n _ _ _ _ _ _
  | InputLayout n _ _ _ _ _ => n
  end.

Definition box_x (b : Box) : Q :=
  match b with
  | DocumentLayout _ x _ _ _ _ | BlockLayout _ x _ _ _ _
  | LineLayout _ x _ _ _ _ | TextLayout _ _ _ x _ _ _
  | InputLayout _ _ x _ _ _ => x
  end.

Definition box_y (b : Box) : Q :=
  match b with
  | DocumentLayout _ _ y _ _ _ | BlockLayout _ _ y _ _ _
  | LineLayout _ _ y _ _ _ | TextLayout _ _ _ _ y _ _
  | InputLayout _ _ _ y _ _ => y
  end.

Definition box_width (b : Box) : Q :=
  match b with
  | DocumentLayout _ _ _ w _ _ | BlockLayout _ _ _ w _ _
  | LineLayout _ _ _ w _ _ | TextLayout _ _ _ _ _ w _
  | InputLayout _ _ _ _ w _ => w
  end.

Definition box_height (b : Box) : Q :=
  match b with
  | DocumentLayout _ _ _ _ h _ | BlockLayout _ _ _ _ h _
  | LineLayout _ _ _ _ h _ | TextLayout _ _ _ _ _ _ h
  | InputLayout _ _ _ _ _ h => h
  end.

Definition box_children (b : Box) : list Box :=
  match b with
  | DocumentLayout _ _ _ _ _ cs | BlockLayout _ _ _ _ _ cs
  | LineLayout _ _ _ _ _ cs => cs
  | TextLayout _ _ _ _ _ _ _ | InputLayout _ _ _ _ _ _ => []
  end.

(** A [TextLayout] or [InputLayout] object as [BlockLayout.word] and
    [BlockLayout.input] append it to a line: not laid out yet. *)
Inductive Inline : Type :=
| Word (node : Node) (word : string)
| Input (node : Node).

(** An inline object after its [layout()]: everything but [y], which
    the line sets. *)
Record Placed : Type := mkPlaced {
  p_inline : Inline;
  p_font : Font;
  p_x : Q;
  p_width : Q;
  p_height : Q;
}.

Definition INPUT_WIDTH_PX : Q := 200.

Definition BLOCK_ELEMENTS : list string :=
  ["html"; "body"; "article"; "section"; "nav"; "aside";
   "h1"; "h2"; "h3"; "h4"; "h5"; "h6"; "hgroup"; "header";
   "footer"; "address"; "p"; "hr"; "pre"; "blockquote";
   "ol"; "ul"; "menu"; "li"; "dl"; "dt"; "dd"; "figure";
   "figcaption"; "main"; "div"; "table"; "form"; "fieldset";
   "legend"; "details"; "summary"]%string.

Inductive mode : Type := inline | block.

Definition is_block_element (child : Node) : bool :=
  match child with
  | Text _ _ _ => false
  | Element _ tag _ _ _ _ => existsb (String.eqb tag) BLOCK_ELEMENTS
  end.

(** [BlockLayout.layout_mode] *)
Definition layout_mode (node : Node) : mode :=
  match node with
  | Text _ _ _ => inline
  | Element _ tag _ _ children _ =>
      if existsb is_block_element children then block
      else if negb (bool_decide (children = []))
              || String.eqb tag "input" || String.eqb tag "button"
      then inline
      else block
  end.

Section Engine.
Context `{Platform} `{Constants}.

(** The font of a node's style, as [BlockLayout.word] computes it
    before measuring. *)
Definition BlockLayout_word_font (node : Node) : result Font :=
  bind (getitem (style node) "color") (fun color =>
  bind (getitem (style node) "font-weight") (fun weight =>
  bind (getitem (style node) "font-style") (fun style_val =>
  let style_val :=
    if String.eqb style_val "normal" then "roman"%string
    else if String.eqb style_val "oblique" then "italic"%string
    else style_val in
  bind (getitem (style node) "font-size") (fun font_size =>
  bind (of_option (float (drop_last 2 font_size))
          (ValueError "could not convert string to float")) (fun px =>
  let size := int (px * (3 # 4)) in
  Ok (get_font size weight style_val)))))).

(** The font [TextLayout.layout] stores in [self.font], with which
    [TextLayout.paint] draws. *)
Definition TextLayout_font (node : Node) : result Font :=
  bind (getitem (style node) "color") (fun color =>
  bind (getitem (style node) "font-weight") (fun weight =>
  bind (getitem (style node) "font-style") (fun style =>
  let style :=
    if String.eqb style "normal" then "roman"%string
    else if String.eqb style "oblique" then "italic"%string
    else style in
  bind (getitem (Dom.style node) "font-size") (fun font_size =>
  bind (of_option (float (drop_last 2 font_size))
          (ValueError "could not convert string to float")) (fun px =>
  let size := int (px * (3 # 4)) in
  Ok (get_font size weight style)))))).

(** The font [InputLayout.layout] stores in [self.font]. *)
Definition InputLayout_font (node : Node) : result Font :=
  bind (getitem (style node) "color") (fun color =>
  bind (getitem (style node) "font-weight") (fun weight =>
  bind (getitem (style node) "font-style") (fun style =>
  let style :=
    if String.eqb style "normal" then "roman"%string
    else if String.eqb style "oblique" then "italic"%string
    else style in
  bind (getitem (Dom.style node) "font-size") (fun font_size =>
  bind (of_option (float (drop_last 2 font_size))
          (ValueError "could not convert string to float")) (fun px =>
  let size := int (px * (3 # 4)) in
  Ok (get_font size weight style)))))).

(** [TextLayout.layout]; [parent_x] is the line's [x] and [previous]
    the laid-out object before this one on the line. *)
Definition TextLayout_layout (node : Node) (word : string) (parent_x : Q)
    (previous : option Placed) : result Placed :=
  bind (TextLayout_font node) (fun font =>
  let width := measure font word in
  let x :=
    match previous with
    | Some p => let space := measure font " " in p_x p + p_width p + space
    | None => parent_x
    end in
  let height := linespace font in
  Ok (mkPlaced (Word node word) font x width height)).

(** [InputLayout.layout] *)
Definition InputLayout_layout (node : Node) (parent_x : Q)
    (previous : option Placed) : result Placed :=
  bind (InputLayout_font node) (fun font =>
  let width := INPUT_WIDTH_PX in
  let x :=
    match previous with
    | Some p => let space := measure font " " in p_x p + p_width p + space
    | None => parent_x
    end in
  let height := linespace font in
  Ok (mkPlaced (Input node) font x width height)).

Definition inline_layout (i : Inline) (parent_x : Q)
    (previous : option Placed) : result Placed :=
  match i with
  | Word node word => TextLayout_layout node word parent_x previous
  | Input node => InputLayout_layout node parent_x previous
  end.

(** [layout()] on the objects of a line, first to last: each one's
    [previous] is the object before it. *)
Fixpoint layout_inlines (parent_x : Q) (previous : option Placed)
    (items : list Inline) : result (list Placed) :=
  match items with
  | [] => Ok []
  | i :: items' =>
      bind (inline_layout i parent_x previous) (fun p =>
      bind (layout_inlines parent_x (Some p) items') (fun ps =>
      Ok (p :: ps)))
  end.

(** [BlockLayout.new_line]: [self.children] gets one more, empty,
    line. *)
Definition new_line (lines : list (list Inline)) : list (list Inline) :=
  (lines ++ [[]])%list.

(** [line.children.append(obj)] for [line = self.children[-1]]. *)
Definition append_to_last (lines : list (list Inline)) (obj : Inline)
  : list (list Inline) :=
  match List.rev lines with
  | line :: before => (List.rev before ++ [line ++ [obj]])%list
  | [] => []
  end.

(** [BlockLayout.word]; [x] and [width] are those of the block, which
    every line shares.  [previouse_word.layout()] is the layout of the
    line so far. *)
Definition BlockLayout_word (x width : Q) (lines : list (list Inline))
    (node : Node) (word : string) : result (list (list Inline)) :=
  bind (of_option (last lines) (Exception "list index out of range"))
    (fun line =>
  bind (layout_inlines x None line) (fun placed =>
  let previouse_word := last placed in
  bind (BlockLayout_word_font node) (fun font =>
  let word_width := measure font word in
  let space_width := measure font " " in
  let total_width :=
    match previouse_word with
    | Some p => p_x p + p_width p + space_width + word_width
    | None => x + word_width
    end in
  if Qgt_bool total_width (x + width)
  then Ok (append_to_last (new_line lines) (Word node word))
  else Ok (append_to_last lines (Word node word))))).

(** [BlockLayout.input] *)
Definition BlockLayout_input (x width : Q) (lines : list (list Inline))
    (node : Node) : result (list (list Inline)) :=
  bind (of_option (last lines) (Exception "list index out of range"))
    (fun line =>
  bind (layout_inlines x None line) (fun placed =>
  let previous_word := last placed in
  bind (InputLayout_layout node x previous_word) (fun temp_input =>
  if Qgt_bool (p_x temp_input + INPUT_WIDTH_PX) (x + width)
  then Ok (append_to_last (new_line lines) (Input node))
  else Ok (append_to_last lines (Input node))))).

(** The [for word in node.text.split()] loop of [recurse]. *)
Fixpoint words (x width : Q) (lines : list (list Inline)) (node : Node)
    (ws : list string) : result (list (list Inline)) :=
  match ws with
  | [] => Ok lines
  | w :: ws' =>
      bind (BlockLayout_word x width lines node w) (fun lines' =>
      words x width lines' node ws')
  end.

(** [BlockLayout.recurse] *)
Fixpoint recurse (x width : Q) (node : Node) (lines : list (list Inline))
  : result (list (list Inline)) :=
  match node with
  | Text _ text _ => words x width lines node (split_ws text)
  | Element _ tag _ _ children _ =>
      if String.eqb tag "br" then Ok (new_line lines)
      else if String.eqb tag "input" || String.eqb tag "button"
      then BlockLayout_input x width lines node
      else
        (fix go (cs : list Node) (lines : list (list Inline))
           : result (list (list Inline)) :=
           match cs with
           | [] => Ok lines
           | child :: cs' =>
               bind (recurse x width child lines) (fun lines' => go cs' lines')
           end) children lines
  end.

(** [LineLayout.layout]; [previous] is the line before, laid out. *)
Definition LineLayout_layout (node : Node) (x parent_y width : Q)
    (previous : option Box) (items : list Inline) : result Box :=
  let y :=
    match previous with
    | Some p => box_y p + box_height p
    | None => parent_y
    end in
  bind (layout_inlines x None items) (fun placed =>
  match placed with
  | [] =>
      let default_font := get_font 12 "normal" "roman" in
      Ok (LineLayout node x y width ((5 # 4) * linespace default_font) [])
  | p :: ps =>
      let max_ascent :=
        max_of (ascent (p_font p)) ((fun w => ascent (p_font w)) <$> ps) in
      let baseline := y + (5 # 4) * max_ascent in
      let place (w : Placed) : Box :=
        let wy := baseline - ascent (p_font w) in
        match p_inline w with
        | Word n word =>
            TextLayout n word (p_font w) (p_x w) wy (p_width w) (p_height w)
        | Input n =>
            InputLayout n (p_font w) (p_x w) wy (p_width w) (p_height w)
        end in
      let max_descent :=
        max_of (descent (p_font p)) ((fun w => descent (p_font w)) <$> ps) in
      Ok (LineLayout node x y width ((5 # 4) * (max_ascent + max_descent))
            (place <$> placed))
  end).

(** The [for child in self.children: child.layout()] loop over the
    lines of an inline block. *)
Fixpoint layout_lines (node : Node) (x parent_y width : Q)
    (previous : option Box) (lines : list (list Inline))
  : result (list Box) :=
  match lines with
  | [] => Ok []
  | items :: lines' =>
      bind (LineLayout_layout node x parent_y width previous items) (fun b =>
      bind (layout_lines node x parent_y width (Some b) lines') (fun bs =>
      Ok (b :: bs)))
  end.

(** [BlockLayout.layout]; the parent's [x], [y], [width] and the
    laid-out sibling before this block are passed in. *)
Fixpoint BlockLayout_layout (node : Node) (parent_x parent_y parent_width : Q)
    (previous : option Box) : result Box :=
  let x := parent_x in
  let width := parent_width in
  let y :=
    match previous with
    | Some p => box_y p + box_height p
    | None => parent_y
    end in
  let inline_mode (_ : unit) : result Box :=
    bind (recurse x width node (new_line [])) (fun lines =>
    bind (layout_lines node x y width None lines) (fun children =>
    Ok (BlockLayout node x y width (sum (box_height <$> children)) children)))
  in
  match node with
  | Text _ _ _ => inline_mode tt
  | Element _ _ _ _ cs _ =>
      match layout_mode node with
      | block =>
          bind ((fix go (cs : list Node) (previous : option Box)
                   : result (list Box) :=
                   match cs with
                   | [] => Ok []
                   | child :: cs' =>
                       bind (BlockLayout_layout child x y width previous)
                         (fun next =>
                       bind (go cs' (Some next)) (fun rest =>
                       Ok (next :: rest)))
                   end) cs None) (fun children =>
          Ok (BlockLayout node x y width (sum (box_height <$> children))
                children))
      | inline => inline_mode tt
      end
  end.


(** [DocumentLayout.layout] for [DocumentLayout(node, width)] *)
Definition DocumentLayout_layout (node : Node) (width : Q) : result Box :=
  let x := HSTEP in
  let y := VSTEP in
  let width := width - 2 * HSTEP in
  bind (BlockLayout_layout node x y width None) (fun child =>
  let height := box_height child in
  Ok (DocumentLayout node x y width height [child])).

(** [should_paint] of each layout class *)
Definition should_paint (b : Box) : bool :=
  match b with
  | DocumentLayout (Text _ _ _) _ _ _ _ _ => true
  | DocumentLayout (Element _ tag _ _ _ _) _ _ _ _ _ =>
      String.eqb tag "input" || String.eqb tag "button"
  | BlockLayout (Text _ _ _) _ _ _ _ _ => true
  | BlockLayout (Element _ tag _ _ _ _) _ _ _ _ _ =>
      negb (String.eqb tag "input") && negb (String.eqb tag "button")
  | LineLayout _ _ _ _ _ _ => false
  | TextLayout _ _ _ _ _ _ _ => true
  | InputLayout _ _ _ _ _ _ => true
  end.

Definition background (node : Node) (x y width height : Q) : list cmd :=
  let bgcolor := default "transparent"%string (style node !! "background-color") in
  if negb (String.eqb bgcolor "transparent")
  then [DrawRect x y (x + width) (y + height) bgcolor]
  else [].

(** [paint] of each layout class.  A block's own [display_list] is
    never filled, so it contributes no text. *)
Definition paint (b : Box) : result (list cmd) :=
  match b with
  | DocumentLayout _ _ _ _ _ _ => Ok []
  | BlockLayout node x y width height _ => Ok (background node x y width height)
  | LineLayout _ _ _ _ _ _ => Ok []
  | TextLayout node word font x y _ _ =>
      bind (getitem (style node) "color") (fun color =>
      Ok [DrawText x y word font color])
  | InputLayout node font x y width height =>
      let cmds := background node x y width height in
      bind (match node with
            | Element _ tag attributes _ children _ =>
                if String.eqb tag "input"
                then Ok (default ""%string (attributes !! "value"))
                else if String.eqb tag "button" then
                  match children with
                  | [Text _ text _] => Ok text
                  | _ => Ok ""%string
                  end
                else Raise (Exception "UnboundLocalError")
            | Text _ _ _ => Raise (Exception "AttributeError")
            end) (fun text =>
      let cmds :=
        if is_focus node then
          let cx := x + measure font text in
          (cmds ++ [DrawLine cx y cx (y + height) "black" 1])%list
        else cmds in
      bind (getitem (style node) "color") (fun color =>
      Ok (cmds ++ [DrawText x y text font color])%list))
  end.

(** Modelled from the spec: [layout_utils.paint_tree] is not part of the
    sources at hand.  "[paint_tree(root, list)] visits each box; if
    [should_paint()] is true, appends the box's drawing commands." *)
Fixpoint paint_tree (b : Box) (display_list : list cmd) : result (list cmd) :=
  bind (if should_paint b
        then bind (paint b) (fun cmds => Ok (display_list ++ cmds)%list)
        else Ok display_list) (fun display_list =>
  match b with
  | DocumentLayout _ _ _ _ _ cs | BlockLayout _ _ _ _ _ cs
  | LineLayout _ _ _ _ _ cs =>
      (fix go (cs : list Box) (display_list : list cmd) : result (list cmd) :=
         match cs with
         | [] => Ok display_list
         | c :: cs' =>
             bind (paint_tree c display_list) (fun dl => go cs' dl)
         end) cs display_list
  | TextLayout _ _ _ _ _ _ _ | InputLayout _ _ _ _ _ _ => Ok display_list
  end).

End Engine.

End Layout.

(** ** What lies outside the modelled code *)
Module host.
Import Py Dom.

(** The state [W] behind the network thread and the [request] methods
    of the URL classes that act on it; CSS rules, the HTML parser and
    [style()]; tasks; and the helpers [URLFactory.resolve_str] and
    [urllib.parse.quote]. *)
Class Host : Type := {
  W : Type;
  Rule : Type;
  Task : Type;
  UserAgent_random : string;
  url_request : Net.URL -> option Net.URL -> option string -> W ->
                result Net.reply * W;
  HTMLParser_parse : string -> result Node;
  cascade_priority : Rule -> Z;
  style : Node -> list Rule -> result Node;
  resolve_str : Net.URL -> string -> string;
  quote : string -> string;
}.

End host.

(** ** networking/network_thread.py *)
Module network_thread.
Import Py Run host.

(** [NetworkResponse] *)
Record NetworkResponse : Type := mkResponse {
  status : Z;
  headers : gmap string string;
  body : string;
  csp : option string;
  url : Net.URL;
  error : option string;
}.

(** [str(e)] *)
Definition str_exn (e : exn) : string :=
  match e with
  | Exception msg | ValueError msg => msg
  | KeyError key => "'" +:+ key +:+ "'"
  end.

Section NetworkThread.
Context `{Host}.

(** The [NetworkThread]: its request counter and what is behind it. *)
Record NetworkThread : Type := mkNetworkThread {
  _request_id_counter : Z;
  world : W;
}.

(** [url.request(referrer, payload)], by the class of [url]. *)
Definition URL_request (url : Net.URL) (referrer : option Net.URL)
    (payload : option string) (w : W) : result Net.reply * W :=
  if String.eqb (Net.schema url) "about"
  then (Ok (Net.mkReply 200 ∅ "" None), w)
  else url_request url referrer payload w.

(** [NetworkThread.request_sync]: the request gets the next id, a
    worker performs it ([_do_request]) and the caller waits for the
    response. *)
Definition request_sync (url : Net.URL) (referrer : option Net.URL)
    (payload : option string) : M NetworkThread NetworkResponse :=
  fun nt =>
    let '(r, w) := URL_request url referrer payload (world nt) in
    let response :=
      match r with
      | Ok rp => mkResponse (Net.status rp) (Net.headers rp) (Net.body rp)
                   (Net.csp rp) url None
      | Raise e => mkResponse 0 ∅ "" None url (Some (str_exn e))
      end in
    (Ok response, mkNetworkThread (_request_id_counter nt + 1) w).

End NetworkThread.

End network_thread.

(** ** content/frame.py *)
Module frame.
Import Py Run Dom Common Layout host.
Local Open Scope run_scope.

(** A [JSContext]: its [frame_id], the [discarded] flag and the code
    its interpreter has been given to evaluate, oldest first. *)
Record JSContext : Type := mkJSContext {
  frame_id : Z;
  discarded : bool;
  evaluated : list string;
}.

Section Types.
Context `{Host}.

(** A [Frame] object.  [parent_frame] and [child_frames] refer to other
    frames by object identity, [iframe_element] to a node by its. *)
Record Frame : Type := mkFrame {
  parent_frame : option nat;
  iframe_element : option nat;
  url : option Net.URL;
  nodes : option Node;
  document : option Box;
  rules : list Rule;
  csp : option string;
  js_context : option JSContext;
  child_frames : list nat;
  needs_render : bool;
  display_list : list cmd;
}.

(** The part of a tab that its frames and their scripts work on: the
    [Frame] objects by identity, [tab.frames], [tab.needs_render], the
    task runner's queue, [tab.width], [tab.default_style_sheet], and
    the network thread. *)
Record Page : Type := mkPage {
  objects : gmap nat Frame;
  next_object : nat;
  frames : list nat;
  tab_needs_render : bool;
  tasks : list Task;
  width : Q;
  default_style_sheet : list Rule;
  network : network_thread.NetworkThread;
}.

Definition set_objects (o : gmap nat Frame) (pg : Page) : Page :=
  mkPage o (next_object pg) (frames pg) (tab_needs_render pg) (tasks pg)
         (width pg) (default_style_sheet pg) (network pg).

Definition set_frames (fs : list nat) (pg : Page) : Page :=
  mkPage (objects pg) (next_object pg) fs (tab_needs_render pg) (tasks pg)
         (width pg) (default_style_sheet pg) (network pg).

Definition set_tab_needs_render (b : bool) (pg : Page) : Page :=
  mkPage (objects pg) (next_object pg) (frames pg) b (tasks pg)
         (width pg) (default_style_sheet pg) (network pg).

Definition set_width (w : Q) (pg : Page) : Page :=
  mkPage (objects pg) (next_object pg) (frames pg) (tab_needs_render pg)
         (tasks pg) w (default_style_sheet pg) (network pg).

Definition set_network (n : network_thread.NetworkThread) (pg : Page) : Page :=
  mkPage (objects pg) (next_object pg) (frames pg) (tab_needs_render pg)
         (tasks pg) (width pg) (default_style_sheet pg) n.

(** The steps of [Frame.load] that are taken as given: they fetch
    style sheets and scripts and build child frames. *)
Class Loader : Type := {
  _load_stylesheets : nat -> Net.URL -> M Page unit;
  _load_scripts : nat -> Net.URL -> M Page unit;
  _load_iframes : nat -> Net.URL -> M Page unit;
  js_dispatch_event : JSContext -> string -> Node -> M Page bool;
}.

End Types.

Section Frame.
Context `{Host} `{!Loader} `{Platform} `{Constants}.

(** [get_network_thread().request_sync(...)] *)
Definition request_sync (url : Net.URL) (referrer : option Net.URL)
    (payload : option string) : M Page network_thread.NetworkResponse :=
  fun pg =>
    let '(r, nt) := network_thread.request_sync url referrer payload
                      (network pg) in
    (r, set_network nt pg).

(** [Frame(tab)]: a new object. *)
Definition Frame_init (parent_frame iframe_element : option nat)
  : M Page nat :=
  fun pg =>
    let self := next_object pg in
    let fr := mkFrame parent_frame iframe_element None None None [] None
                None [] false [] in
    (Ok self,
     mkPage (<[self := fr]> (objects pg)) (S self) (frames pg)
            (tab_needs_render pg) (tasks pg) (width pg)
            (default_style_sheet pg) (network pg)).

(** The object [self] refers to. *)
Definition deref (self : nat) : M Page Frame :=
  fun pg =>
    match objects pg !! self with
    | Some fr => (Ok fr, pg)
    | None => (Raise (Exception "no such object"), pg)
    end.

(** Assignment to attributes of [self]. *)
Definition update (self : nat) (f : Frame -> Frame) : M Page unit :=
  modify (fun pg => set_objects (alter f self (objects pg)) pg).

(** [Frame.set_needs_render] *)
Definition set_needs_render (self : nat) : M Page unit :=
  update self (fun fr =>
    mkFrame (parent_frame fr) (iframe_element fr) (url fr) (nodes fr)
      (document fr) (rules fr) (csp fr) (js_context fr) (child_frames fr)
      true (display_list fr)) ;;;
  modify (set_tab_needs_render true).

(** [sorted(rules, key=cascade_priority)]: a stable insertion sort. *)
Fixpoint insert_rule (r : Rule) (rs : list Rule) : list Rule :=
  match rs with
  | [] => [r]
  | r' :: rs' =>
      if (cascade_priority r' <=? cascade_priority r)%Z
      then r' :: insert_rule r rs'
      else r :: rs
  end.

Definition sorted (rs : list Rule) : list Rule :=
  fold_left (fun acc r => insert_rule r acc) rs [].

(** [Frame.render] *)
Definition render (self : nat) : M Page unit :=
  me <- deref self ;;
  root <- lift (of_option (nodes me) (Exception "AttributeError")) ;;
  root <- lift (style root (sorted (rules me))) ;;
  update self (fun fr =>
    mkFrame (parent_frame fr) (iframe_element fr) (url fr) (Some root)
      (document fr) (rules fr) (csp fr) (js_context fr) (child_frames fr)
      (needs_render fr) (display_list fr)) ;;;
  w <- gets width ;;
  doc <- lift (DocumentLayout_layout root w) ;;
  update self (fun fr =>
    mkFrame (parent_frame fr) (iframe_element fr) (url fr) (nodes fr)
      (Some doc) (rules fr) (csp fr) (js_context fr) (child_frames fr)
      (needs_render fr) []) ;;;
  dl <- lift (paint_tree doc []) ;;
  update self (fun fr =>
    mkFrame (parent_frame fr) (iframe_element fr) (url fr) (nodes fr)
      (document fr) (rules fr) (csp fr) (js_context fr) (child_frames fr)
      false dl).

(** The page fetch of [Frame.load]: the [try] block and its
    [except]. *)
Definition fetch_page (referrer : option Net.URL) (url : string)
    (payload : option string) : M Page (Net.URL * network_thread.NetworkResponse) :=
  try_except
    (url_obj <- lift (Net.URLFactory_parse UserAgent_random url) ;;
     response <- request_sync url_obj referrer payload ;;
     if Net.truthy (network_thread.error response)
     then raise (Exception (default "" (network_thread.error response)))
     else ret (url_obj, response))
    (fun e =>
     url_obj <- lift (Net.URLFactory_parse UserAgent_random "about:blank") ;;
     response <- request_sync url_obj referrer None ;;
     ret (url_obj, response)).

(** The HTML parse of [Frame.load], with its fallback document. *)
Definition parse_html (body : string) : result Node :=
  match HTMLParser_parse body with
  | Ok nodes => Ok nodes
  | Raise _ => HTMLParser_parse "<html><body></body></html>"
  end.

(** [Frame.load] with [max_redirects] counted down as a natural
    number: [0] is [max_redirects <= 0]. *)
Fixpoint load_from (budget : nat) (self : nat) (url : string)
    (payload : option string) : M Page unit :=
  match budget with
  | O => raise (Exception "Too many redirects")
  | S budget' =>
      me <- deref self ;;
      fetched <- fetch_page (frame.url me) url payload ;;
      let '(url_obj, response) := fetched in
      nodes <- lift (parse_html (network_thread.body response)) ;;
      if (300 <=? network_thread.status response)%Z
         && (network_thread.status response <? 400)%Z then
        match network_thread.headers response !! "location" with
        | Some (String c l) => load_from budget' self (String c l) None
        | _ => raise (Exception "Redirect without Location header")
        end
      else
        sheet <- gets default_style_sheet ;;
        update self (fun fr =>
          mkFrame (parent_frame fr) (iframe_element fr) (Some url_obj)
            (Some nodes) (document fr) sheet (network_thread.csp response)
            (js_context fr)
            (child_frames fr) (needs_render fr) (display_list fr)) ;;;
        _load_stylesheets self url_obj ;;;
        render self ;;;
        _load_scripts self url_obj ;;;
        _load_iframes self url_obj
  end.

(** [Frame.load(url, payload, max_redirects)] *)
Definition load (self : nat) (url : string) (payload : option string)
    (max_redirects : Z) : M Page unit :=
  load_from (Z.to_nat max_redirects) self url payload.

(** [Frame.get_display_list]; a chain of child frames longer than there
    are objects is a cycle, on which Python gives up with
    [RecursionError]. *)
Fixpoint get_display_list_from (depth : nat) (pg : Page) (self : nat)
  : result (list cmd) :=
  match depth with
  | O => Raise (Exception "RecursionError")
  | S depth' =>
      match objects pg !! self with
      | None => Raise (Exception "no such object")
      | Some fr =>
          (fix go (cs : list nat) (result : list cmd) :=
             match cs with
             | [] => Ok result
             | c :: cs' =>
                 bind (get_display_list_from depth' pg c) (fun dl =>
                 go cs' (result ++ dl)%list)
             end) (child_frames fr) (display_list fr)
      end
  end.

Definition get_display_list (self : nat) : M Page (list cmd) :=
  fun pg => (get_display_list_from (S (size (objects pg))) pg self, pg).

(** [Frame.dispatch_event] *)
Definition dispatch_event (self : nat) (type : string) (elt : Node)
  : M Page bool :=
  me <- deref self ;;
  match js_context me with
  | Some js => js_dispatch_event js type elt
  | None => ret false
  end.

End Frame.

End frame.

(** ** content/tab.py *)
Module tab.
Import Py Run Dom Common Layout host frame.
Local Open Scope Q_scope.
Local Open Scope run_scope.

Section Tab.
Context `{Host} `{!Loader} `{Platform} `{Constants}.

(** A [Tab] object.  The fields its frames share are in [page]; [focus]
    is the focused node as it currently is. *)
Record Tab : Type := mkTab {
  scroll : Q;
  height : Q;
  tab_height : Q;
  history : list string;
  focus : option Node;
  root_frame : option nat;
  display_list : list cmd;
  page : Page;
}.

Definition set_scroll (s : Q) (t : Tab) : Tab :=
  mkTab s (height t) (tab_height t) (history t) (focus t) (root_frame t)
        (display_list t) (page t).

Definition set_height (h : Q) (t : Tab) : Tab :=
  mkTab (scroll t) h (tab_height t) (history t) (focus t) (root_frame t)
        (display_list t) (page t).

Definition set_history (h : list string) (t : Tab) : Tab :=
  mkTab (scroll t) (height t) (tab_height t) h (focus t) (root_frame t)
        (display_list t) (page t).

Definition set_focus (f : option Node) (t : Tab) : Tab :=
  mkTab (scroll t) (height t) (tab_height t) (history t) f (root_frame t)
        (display_list t) (page t).

Definition set_root_frame (r : option nat) (t : Tab) : Tab :=
  mkTab (scroll t) (height t) (tab_height t) (history t) (focus t) r
        (display_list t) (page t).

Definition set_display_list (d : list cmd) (t : Tab) : Tab :=
  mkTab (scroll t) (height t) (tab_height t) (history t) (focus t)
        (root_frame t) d (page t).

Definition set_page (p : Page) (t : Tab) : Tab :=
  mkTab (scroll t) (height t) (tab_height t) (history t) (focus t)
        (root_frame t) (display_list t) p.

(** Code of the frames, run on the tab's page. *)
Definition on_page {A} (m : M Page A) : M Tab A :=
  fun t => let '(r, pg) := m (page t) in (r, set_page pg t).

(** [Tab(tab_height, default_style_sheet)], given the process's network
    thread. *)
Definition Tab_init (tab_height : Q) (default_style_sheet : list Rule)
    (nt : network_thread.NetworkThread) : Tab :=
  mkTab 0 (HEIGHT - tab_height) tab_height [] None None []
        (mkPage ∅ 0 [] false [] WIDTH default_style_sheet nt).

(** [Tab.set_needs_render] *)
Definition set_needs_render : M Tab unit :=
  on_page (modify (set_tab_needs_render true)).

(** The [Frame] object [tab.root_frame], if there is one. *)
Definition the_root_frame (t : Tab) : option Frame :=
  root_frame t ≫= fun r => objects (page t) !! r.

(** [Tab.url] *)
Definition url (t : Tab) : option Net.URL :=
  the_root_frame t ≫= frame.url.

(** [Tab.get_max_y] *)
Definition get_max_y (t : Tab) : Q :=
  match the_root_frame t ≫= document with
  | Some doc => box_height doc + 2 * VSTEP
  | None => 0
  end.

(** [Tab.scrolldown] *)
Definition scrolldown : M Tab unit :=
  modify (fun t =>
    let document_height := get_max_y t in
    let max_scroll := Qmax 0 (document_height - height t) in
    set_scroll (Qmin (scroll t + SCROLL_STEP) max_scroll) t).

(** [Tab.scollup] *)
Definition scollup : M Tab unit :=
  modify (fun t =>
    if Qle_bool (scroll t) 0 then t
    else set_scroll (Qmax 0 (scroll t - SCROLL_STEP)) t).

(** [Tab._composite_display_list] *)
Definition _composite_display_list : M Tab unit :=
  modify (set_display_list []) ;;;
  fs <- gets (fun t => frames (page t)) ;;
  (fix go (fs : list nat) : M Tab unit :=
     match fs with
     | [] => ret tt
     | fr :: fs' =>
         dl <- on_page (get_display_list fr) ;;
         modify (fun t => set_display_list (display_list t ++ dl)%list t) ;;;
         go fs'
     end) fs.

(** [Tab.load] *)
Definition load (url : string) (payload : option string)
    (max_redirects : Z) : M Tab unit :=
  modify (fun t => set_history (history t ++ [url])%list t) ;;;
  fr <- on_page (Frame_init None None) ;;
  modify (set_root_frame (Some fr)) ;;;
  on_page (modify (set_frames [fr])) ;;;
  on_page (frame.load fr url payload max_redirects) ;;;
  _composite_display_list.

(** [Tab.render] *)
Definition render : M Tab unit :=
  fs <- gets (fun t => frames (page t)) ;;
  (fix go (fs : list nat) : M Tab unit :=
     match fs with
     | [] => ret tt
     | fr :: fs' =>
         f <- on_page (deref fr) ;;
         when (needs_render f) (on_page (frame.render fr)) ;;;
         go fs'
     end) fs ;;;
  _composite_display_list ;;;
  on_page (modify (set_tab_needs_render false)).

(** [Tab.go_back] *)
Definition go_back : M Tab unit :=
  h <- gets history ;;
  if (1 <? length h)%nat then
    modify (set_history (removelast h)) ;;;
    h <- gets history ;;
    back_url <- lift (of_option (last h) (Exception "list index out of range")) ;;
    load back_url None 10%Z
  else ret tt.

(** [tree_to_list(document, [])] on layout objects *)
Fixpoint box_tree_to_list (b : Box) : list Box :=
  b ::
  match b with
  | DocumentLayout _ _ _ _ _ cs | BlockLayout _ _ _ _ _ cs
  | LineLayout _ _ _ _ _ cs =>
      (fix go (cs : list Box) : list Box :=
         match cs with
         | [] => []
         | c :: cs' => (box_tree_to_list c ++ go cs')%list
         end) cs
  | TextLayout _ _ _ _ _ _ _ | InputLayout _ _ _ _ _ _ => []
  end.

(** The node with identity [i] in the tree under [n], followed by its
    parent, its parent's parent, and so on up to [n]. *)
Fixpoint path_to (i : nat) (n : Node) : option (list Node) :=
  if Nat.eqb (oid n) i then Some [n]
  else
    match n with
    | Text _ _ _ => None
    | Element _ _ _ _ cs _ =>
        (fix go (cs : list Node) : option (list Node) :=
           match cs with
           | [] => None
           | c :: cs' =>
               match path_to i c with
               | Some p => Some (p ++ [n])%list
               | None => go cs'
               end
           end) cs
    end.

(** Assignment to attributes of the node with identity [i]. *)
Fixpoint update_node (i : nat) (f : Node -> Node) (n : Node) : Node :=
  if Nat.eqb (oid n) i then f n
  else
    match n with
    | Text _ _ _ => n
    | Element j tag attrs sty cs foc =>
        Element j tag attrs sty (update_node i f <$> cs) foc
    end.

Definition set_attribute (key value : string) (n : Node) : Node :=
  match n with
  | Text _ _ _ => n
  | Element j tag attrs sty cs foc =>
      Element j tag (<[key := value]> attrs) sty cs foc
  end.

Definition set_is_focus (b : bool) (n : Node) : Node :=
  match n with
  | Text j text sty => n
  | Element j tag attrs sty cs _ => Element j tag attrs sty cs b
  end.

Definition attributes (n : Node) : gmap string string :=
  match n with
  | Text _ _ _ => ∅
  | Element _ _ attrs _ _ _ => attrs
  end.

Definition tag (n : Node) : string :=
  match n with
  | Text _ _ _ => ""
  | Element _ t _ _ _ _ => t
  end.

(** The same assignment, seen in the root frame's document. *)
Definition mutate (i : nat) (f : Node -> Node) : M Tab unit :=
  r <- gets root_frame ;;
  match r with
  | Some r =>
      on_page (update r (fun fr =>
        mkFrame (parent_frame fr) (iframe_element fr) (frame.url fr)
          (update_node i f <$> nodes fr) (document fr) (rules fr) (csp fr)
          (js_context fr) (child_frames fr) (needs_render fr)
          (frame.display_list fr)))
  | None => ret tt
  end.

(** [self.root_frame.dispatch_event(type, elt)] *)
Definition root_dispatch_event (type : string) (elt : Node) : M Tab bool :=
  r <- gets root_frame ;;
  r <- lift (of_option r (Exception "AttributeError")) ;;
  on_page (dispatch_event r type elt).

(** [URLFactory.resolve_str(self.root_frame.url, href)] *)
Definition resolve (href : string) : M Tab string :=
  u <- gets url ;;
  u <- lift (of_option u (Exception "AttributeError")) ;;
  ret (resolve_str u href).

(** The body built by [Tab.submit_form]. *)
Fixpoint form_body (inputs : list Node) (body : string) : string :=
  match inputs with
  | [] => body
  | input :: inputs' =>
      let name := default "" (attributes input !! "name") in
      let value := default "" (attributes input !! "value") in
      form_body inputs' (body +:+ quote name +:+ "=" +:+ quote value +:+ "&")
  end.

(** [Tab.submit_form] *)
Definition submit_form (elt : Node) : M Tab unit :=
  prevented <- root_dispatch_event "submit" elt ;;
  if prevented : bool then ret tt
  else
    let inputs :=
      List.filter (fun node =>
        match node with
        | Element _ t attrs _ _ _ =>
            String.eqb t "input" && bool_decide (is_Some (attrs !! "name"))
        | Text _ _ _ => false
        end) (tree_to_list elt) in
    let body := form_body inputs "" in
    let body := drop_last 1 body in
    action <- lift (getitem (attributes elt) "action") ;;
    url <- resolve action ;;
    load url (Some body) 10%Z.

(** The inner [while elt:] loop of the button case: up to the nearest
    form with an action. *)
Fixpoint find_form (chain : list Node) : option Node :=
  match chain with
  | [] => None
  | elt :: up =>
      if String.eqb (tag elt) "form"
         && bool_decide (is_Some (attributes elt !! "action"))
      then Some elt
      else find_form up
  end.

(** The [while elt:] loop of [Tab.click] over [elt], [elt.parent],
    and so on. *)
Fixpoint click_loop (chain : list Node) : M Tab unit :=
  match chain with
  | [] => ret tt
  | elt :: up =>
      match elt with
      | Text _ _ _ => click_loop up
      | Element i t attrs _ _ _ =>
          if String.eqb t "a" && bool_decide (is_Some (attrs !! "href"))
          then
            prevented <- root_dispatch_event "click" elt ;;
            if prevented : bool then ret tt
            else
              url <- resolve (default "" (attrs !! "href")) ;;
              load url None 10%Z ;;;
              click_loop up
          else if String.eqb t "input" then
            prevented <- root_dispatch_event "click" elt ;;
            if prevented : bool then ret tt
            else
              mutate i (set_attribute "value" "") ;;;
              old <- gets focus ;;
              match old with
              | Some o => mutate (oid o) (set_is_focus false)
              | None => ret tt
              end ;;;
              mutate i (set_is_focus true) ;;;
              modify (set_focus
                        (Some (set_is_focus true (set_attribute "value" "" elt)))) ;;;
              set_needs_render
          else if String.eqb t "button" then
            prevented <- root_dispatch_event "click" elt ;;
            if prevented : bool then ret tt
            else
              match find_form chain with
              | Some form => submit_form form
              | None => raise (Exception "AttributeError")
              end
          else click_loop up
      end
  end.

(** [Tab.click] for a click at [(x, y)]. *)
Definition click (x y : Q) : M Tab unit :=
  modify (set_focus None) ;;;
  t <- gets id ;;
  let y := y + scroll t in
  match the_root_frame t with
  | None => ret tt
  | Some fr =>
      match document fr with
      | None => ret tt
      | Some doc =>
          let objs :=
            List.filter (fun obj =>
              Qle_bool (box_x obj) x && Qgt_bool (box_x obj + box_width obj) x
              && Qle_bool (box_y obj) y
              && Qgt_bool (box_y obj + box_height obj) y)
              (box_tree_to_list doc) in
          match last objs with
          | None => ret tt
          | Some obj =>
              let elt := box_node obj in
              let chain :=
                default [elt] (nodes fr ≫= path_to (oid elt)) in
              click_loop chain
          end
      end
  end.

(** [Tab.keypress] *)
Definition keypress (char : string) : M Tab unit :=
  f <- gets focus ;;
  match f with
  | None => ret tt
  | Some elt =>
      prevented <- root_dispatch_event "keydown" elt ;;
      if prevented : bool then ret tt
      else
        value <- lift (getitem (attributes elt) "value") ;;
        mutate (oid elt) (set_attribute "value" (value +:+ char)) ;;;
        modify (set_focus (Some (set_attribute "value" (value +:+ char) elt))) ;;;
        set_needs_render
  end.

(** [Tab.backspace] *)
Definition backspace : M Tab unit :=
  f <- gets focus ;;
  match f with
  | None => ret tt
  | Some elt =>
      match attributes elt !! "value" with
      | Some (String c v) =>
          let current_value := String c v in
          mutate (oid elt) (set_attribute "value" (drop_last 1 current_value)) ;;;
          modify (set_focus
                    (Some (set_attribute "value" (drop_last 1 current_value) elt))) ;;;
          set_needs_render
      | _ => ret tt
      end
  end.

End Tab.

End tab.

(** ** background/main_thread.py and the scroll handler of core/browser.py *)
Module main_thread.
Import Py Run Dom Common Layout host frame tab.
Local Open Scope Q_scope.
Local Open Scope run_scope.

(** [Event]: an [EventType] with the data it carries. *)
Inductive Event : Type :=
| LOAD (url : string) (payload : option string)
| CLICK (x y : Q)
| KEYPRESS (char : string)
| BACKSPACE
| SCROLL_DOWN
| SCROLL_UP
| SCROLL_TO (scroll : option Q)
| RESIZE (width height : Q)
| GO_BACK
| STOP.

(** [CommitData] *)
Record CommitData : Type := mkCommitData {
  display_list : list cmd;
  document_height : Q;
  scroll : Q;
  url : option string;
  tab_id : nat;
}.

Section MainThread.
Context `{Host} `{!Loader} `{Platform} `{Constants}.

(** A [MainThread] with its tab; [tab_oid] is [id(self.tab)]. *)
Record MainThread : Type := mkMainThread {
  tab : Tab;
  tab_oid : nat;
  running : bool;
  browser_commit_queue : list CommitData;
}.

(** Code of the tab, run by its main thread. *)
Definition on_tab {A} (m : M Tab A) : M MainThread A :=
  fun mt =>
    let '(r, t) := m (tab mt) in
    (r, mkMainThread t (tab_oid mt) (running mt) (browser_commit_queue mt)).

(** [MainThread._commit] *)
Definition _commit : M MainThread unit :=
  modify (fun mt =>
    let commit_data :=
      mkCommitData (tab.display_list (tab mt)) (get_max_y (tab mt))
        (tab.scroll (tab mt)) (Net.URL_str <$> tab.url (tab mt))
        (tab_oid mt) in
    mkMainThread (tab mt) (tab_oid mt) (running mt)
      (browser_commit_queue mt ++ [commit_data])%list).

(** [MainThread._commit_scroll]: a tab always has a [display_list] and
    a [document] attribute, so the same data is committed. *)
Definition _commit_scroll : M MainThread unit :=
  modify (fun mt =>
    let commit_data :=
      mkCommitData (tab.display_list (tab mt)) (get_max_y (tab mt))
        (tab.scroll (tab mt)) (Net.URL_str <$> tab.url (tab mt))
        (tab_oid mt) in
    mkMainThread (tab mt) (tab_oid mt) (running mt)
      (browser_commit_queue mt ++ [commit_data])%list).

Definition tab_needs_render : M MainThread bool :=
  gets (fun mt => frame.tab_needs_render (page (tab mt))).

(** [MainThread._handle_event] *)
Definition _handle_event (event : Event) : M MainThread unit :=
  match event with
  | STOP =>
      modify (fun mt =>
        mkMainThread (tab mt) (tab_oid mt) false (browser_commit_queue mt))
  | LOAD url payload =>
      on_tab (tab.load url payload 10%Z) ;;;
      _commit
  | CLICK x y =>
      on_tab (tab.click x y) ;;;
      b <- tab_needs_render ;;
      when b (on_tab tab.render) ;;;
      _commit
  | KEYPRESS char =>
      on_tab (tab.keypress char) ;;;
      b <- tab_needs_render ;;
      when b (on_tab tab.render ;;; _commit)
  | BACKSPACE =>
      on_tab tab.backspace ;;;
      b <- tab_needs_render ;;
      when b (on_tab tab.render ;;; _commit)
  | SCROLL_DOWN =>
      on_tab tab.scrolldown ;;;
      _commit_scroll
  | SCROLL_UP =>
      on_tab tab.scollup ;;;
      _commit_scroll
  | SCROLL_TO scroll =>
      let scroll := default 0 scroll in
      on_tab (modify (set_scroll scroll)) ;;;
      _commit_scroll
  | RESIZE width height =>
      on_tab (on_page (modify (set_width width))) ;;;
      on_tab (modify (set_height height)) ;;;
      on_tab tab.set_needs_render
  | GO_BACK =>
      on_tab tab.go_back ;;;
      _commit
  end.

(** [Browser.handle_scroll], for a browser window of height
    [browser_height] whose chrome ends at [chrome_bottom]: the event it
    posts to the active tab's main thread, if any. *)
Definition handle_scroll (browser_height chrome_bottom : Q)
    (active_commit : option CommitData) (wheel_y : Q) : option Event :=
  match active_commit with
  | Some commit =>
      let delta := wheel_y * SCROLL_STEP in
      let viewport_height := browser_height - chrome_bottom in
      let max_scroll := Qmax 0 (document_height commit - viewport_height) in
      let new_scroll := Qmax 0 (Qmin (scroll commit - delta) max_scroll) in
      Some (SCROLL_TO (Some new_scroll))
  | None => None
  end.

End MainThread.

End main_thread.

(** ** scripting/js_context.py: the host function [postMessage] *)
Module js_context.
Import Py Run host frame.
Local Open Scope run_scope.

Section JSContext.
Context `{Host}.

(** The loop of [_find_frame_by_id] over [self.frame.tab.frames]. *)
Fixpoint find_in (pg : Page) (fs : list nat) (frame_id : Z) : option nat :=
  match fs with
  | [] => None
  | f :: fs' =>
      match objects pg !! f ≫= js_context with
      | Some js =>
          if (frame.frame_id js =? frame_id)%Z then Some f
          else find_in pg fs' frame_id
      | None => find_in pg fs' frame_id
      end
  end.

(** [JSContext._find_frame_by_id]; [self] is the context and [frame]
    its [self.frame]. *)
Definition _find_frame_by_id (self : JSContext) (frame : nat)
    (frame_id : Z) : M Page (option nat) :=
  if (frame.frame_id self =? frame_id)%Z then ret (Some frame)
  else gets (fun pg => find_in pg (frames pg) frame_id).

(** [JSContext.postMessage].  The delivery of the message event is a
    comment in the source ("TODO"): after the checks nothing is done. *)
Definition postMessage (self : JSContext) (frame : nat)
    (target_frame_id : Z) (message target_origin : string) : M Page unit :=
  target_frame <- _find_frame_by_id self frame target_frame_id ;;
  match target_frame with
  | None => ret tt
  | Some tf =>
      target <- gets (fun pg => objects pg !! tf) ;;
      match target ≫= js_context with
      | None => ret tt
      | Some _ =>
          if negb (String.eqb target_origin "*")
             && match target ≫= frame.url with
                | Some u => negb (String.eqb (Net.origin u) target_origin)
                | None => false
                end
          then ret tt
          else
            me <- gets (fun pg => objects pg !! frame) ;;
            let source_origin :=
              match me ≫= frame.url with
              | Some u => Net.origin u
              | None => ""
              end in
            ret tt
      end
  end.

End JSContext.

End js_context.

(* ===================================================================== *)
(** * Part II -- properties                                                *)
(* ===================================================================== *)

(** ** Facts about the Python string functions *)
Module PyFacts.
Import Py.

Lemma startswith_app (p s : string) :
  startswith p s = true -> exists r, s = p +:+ r.
Proof.
  revert s. induction p as [|a p IH]; intros s Hs.
  - exists s. reflexivity.
  - destruct s as [|b s]; [discriminate|]. simpl in Hs.
    destruct (Ascii.eqb a b) eqn:E; [|discriminate].
    apply Ascii.eqb_eq in E. subst b.
    destruct (IH s Hs) as [r ->]. exists r. reflexivity.
Qed.

Lemma startswith_prefix (p r : string) : startswith p (p +:+ r) = true.
Proof.
  induction p as [|a p IH]; [reflexivity|]. simpl.
  rewrite Ascii.eqb_refl. exact IH.
Qed.

Lemma contains_prefix (p r : string) : contains p (p +:+ r) = true.
Proof.
  destruct (p +:+ r) eqn:E; simpl; rewrite <- E, startswith_prefix; reflexivity.
Qed.

Lemma contains_cons (sub : string) (c : ascii) (s : string) :
  contains sub s = true -> contains sub (String c s) = true.
Proof. intros Hs. simpl. rewrite Hs. apply orb_true_r. Qed.

Lemma contains_app (sub a b : string) :
  contains sub b = true -> contains sub (a +:+ b) = true.
Proof.
  intros Hb. induction a as [|c a IH]; [exact Hb|].
  simpl String.append. apply contains_cons, IH.
Qed.

End PyFacts.

(** ** The response cache (cache_manager.py, https_url.py) *)
Module CacheProps.
Import Py Run Net PyFacts.

Lemma max_age_directive (d : string) :
  startswith "max-age=" d = true ->
  exists v, d = "max-age=" +:+ v /\ split_once "=" d = Some ("max-age", v).
Proof.
  intros Hd. destruct (startswith_app _ _ Hd) as [v ->].
  exists v. split; reflexivity.
Qed.

Lemma find_max_age_cons (d : string) (ds : list string) :
  find_max_age (d :: ds) =
  if startswith "max-age=" (strip d) then
    match split_once "=" (strip d) with
    | Some (_, v) =>
        bind (of_option (int_of 10 v) (ValueError "invalid literal for int()"))
             (fun n => Ok (Some n))
    | None => Raise (Exception "list index out of range")
    end
  else find_max_age ds.
Proof. reflexivity. Qed.

(** The loop of [set] leaves a [max_age] only for a directive that
    reads [max-age=N]. *)
Lemma find_max_age_Some (ds : list string) (n : Z) :
  find_max_age ds = Ok (Some n) ->
  exists d v, d ∈ ds /\ strip d = "max-age=" +:+ v /\ int_of 10 v = Some n.
Proof.
  induction ds as [|d ds IH]; [discriminate|].
  rewrite find_max_age_cons.
  destruct (startswith "max-age=" (strip d)) eqn:Hd.
  - destruct (max_age_directive _ Hd) as (v & Hv & ->).
    destruct (int_of 10 v) as [m|] eqn:Hm; [|discriminate].
    intros [= <-]. exists d, v. split; [left|]. split; assumption.
  - intros Hrest. destruct (IH Hrest) as (d' & v & Hin & Hs & Hn).
    exists d', v. split; [right; exact Hin|]. split; assumption.
Qed.

(** [set] changes the cache in one way only. *)
Lemma CacheManager_set_cases (now : Z) (url_str : string) (r : reply)
    (c : gmap string entry) (res : result unit) (c' : gmap string entry) :
  CacheManager_set now url_str r c = (res, c') ->
  c' = c \/
  exists N,
    res = Ok tt /\
    contains "no-store" (lower (default "" (headers r !! "cache-control"))) = false /\
    find_max_age (split_char "," (lower (default "" (headers r !! "cache-control"))))
      = Ok (Some N) /\
    c' = <[url_str := mkEntry r (now + N)]> c.
Proof.
  unfold CacheManager_set.
  destruct (contains "no-store" _) eqn:Hns.
  - intros [= _ <-]. left. reflexivity.
  - destruct (find_max_age _) as [[N|]|e] eqn:Hf.
    + intros [= <- <-]. right. exists N. repeat split; assumption.
    + intros [= _ <-]. left. reflexivity.
    + intros [= _ <-]. left. reflexivity.
Qed.

(** C4.  [CacheManager.set] stores a response only when its
    Cache-Control value (lower-cased) does not contain [no-store] and
    has a comma-separated directive [max-age=N]; the entry then expires at
    [now + N].  [CacheManager.get] returns only an entry whose
    [expires_at] is later than [now]; an entry with [expires_at <= now]
    is answered with nothing and deleted by the lookup. *)
Theorem cache_population_and_lookup (now : Z) (url_str : string)
    (r : reply) (c : gmap string entry) :
  (forall res c',
      CacheManager_set now url_str r c = (res, c') -> c' <> c ->
      let cache_control := lower (default "" (headers r !! "cache-control")) in
      contains "no-store" cache_control = false /\
      exists d v N,
        d ∈ split_char "," cache_control /\
        strip d = "max-age=" +:+ v /\ int_of 10 v = Some N /\
        c' = <[url_str := mkEntry r (now + N)]> c) /\
  (forall r' c',
      CacheManager_get now url_str c = (Some r', c') ->
      exists e, c !! url_str = Some e /\ cached e = r' /\ now < expires_at e /\ c' = c) /\
  (forall e,
      c !! url_str = Some e -> expires_at e <= now ->
      CacheManager_get now url_str c = (None, delete url_str c)).
Proof.
  split; [|split].
  - intros res c' Hset Hne cache_control.
    destruct (CacheManager_set_cases _ _ _ _ _ _ Hset) as [->|(N & _ & Hns & Hf & ->)];
      [contradiction|].
    split; [exact Hns|].
    destruct (find_max_age_Some _ _ Hf) as (d & v & Hin & Hs & Hn).
    exists d, v, N. repeat split; assumption.
  - intros r' c'. unfold CacheManager_get.
    destruct (c !! url_str) as [e|] eqn:He; [|discriminate].
    destruct (expires_at e <=? now) eqn:Hle; [discriminate|].
    intros [= <- <-]. exists e. apply Z.leb_gt in Hle. repeat split; auto.
  - intros e He Hle. unfold CacheManager_get. rewrite He.
    apply Z.leb_le in Hle. rewrite Hle. reflexivity.
Qed.

(** C10.  When the cache holds an entry for the URL string that has not
    expired, [HTTPSURL.request] returns it and leaves every process-wide
    object as it was -- no socket is opened, nothing is sent -- whatever
    the referrer and the payload, so also for a POST. *)
Theorem cached_reply_short_circuits `{World} (now now' : Z) (self : URL)
    (referrer : option URL) (payload : option string) (st : state) (e : entry) :
  _cache st !! (schema self +:+ "://" +:+ raw_url self) = Some e ->
  now < expires_at e ->
  HTTPSURL_request now now' self referrer payload st = (Ok (cached e), st).
Proof.
  intros He Hlt. unfold HTTPSURL_request, mbind, gets, CacheManager_get.
  rewrite He. apply Z.leb_gt in Hlt. rewrite Hlt.
  unfold modify, ret, set_cache. destruct st; reflexivity.
Qed.

End CacheProps.

(** A server that answers every request with a cacheable page. *)
Module DemoServer.
Import Py Net.

Definition page : string :=
  "HTTP/1.1 200 OK" +:+ CRLF +:+
  "Cache-Control: public, max-age=60" +:+ CRLF +:+
  CRLF +:+ "hello".

#[export] Instance world : World := {|
  connect := fun _ _ _ => None;
  respond := fun _ _ => page;
  gunzip := fun b => Ok b;
  decode_ignore := fun b => b;
|}.

Definition url : URL :=
  mkURL "https" "shop.test/cart" (Some "shop.test") "/cart" (Some 443) "ua".

Definition fresh : state := mkState ∅ ∅ ∅ ∅ 0 ∅ [].

(** The state after a first GET at time 0 (answered at time 1). *)
Definition after_get : state :=
  snd (HTTPSURL_request 0 1 url None None fresh).

Definition the_reply : reply :=
  mkReply 200
    (<["cache-control" := "public, max-age=60"]> ∅) "hello" None.

End DemoServer.

Module CacheWitness.
Import Py Run Net CacheProps DemoServer.

Lemma cache_population_and_lookup_witness :
  contains "no-store" "public, max-age=60" = false /\
  exists d v N,
    d ∈ split_char "," "public, max-age=60" /\
    strip d = "max-age=" +:+ v /\ int_of 10 v = Some N /\
    (<["https://shop.test/cart" := mkEntry the_reply 61]> ∅ : gmap string entry)
    = <["https://shop.test/cart" := mkEntry the_reply (1 + N)]> ∅.
Proof.
  destruct (cache_population_and_lookup 1 "https://shop.test/cart" the_reply ∅)
    as [Hset _].
  apply (Hset (Ok tt) (<["https://shop.test/cart" := mkEntry the_reply 61]> ∅)).
  - reflexivity.
  - apply insert_non_empty.
Defined.

(** The first GET goes to the network and fills the cache; a POST with
    a payload four ticks later is answered from it. *)
Lemma cached_reply_short_circuits_witness :
  wire after_get =
    [Opened 0; Wrapped 0 "shop.test"; Connected 0 "shop.test" 443;
     Sent 0 (render (build_request url None None ∅))] /\
  HTTPSURL_request 5 6 url (Some url) (Some "item=1") after_get
  = (Ok the_reply, after_get).
Proof.
  split; [reflexivity|].
  apply (cached_reply_short_circuits 5 6 url (Some url) (Some "item=1")
           after_get (mkEntry the_reply 61)).
  - reflexivity.
  - reflexivity.
Defined.

End CacheWitness.

(** ** SameSite=Lax cookies (http_base.py) *)
Module CookieProps.
Import Py Net.

(** The header fields that are not the cookie are never named
    [Cookie]. *)
Lemma cookie_in_request (self : URL) (referrer : option URL)
    (payload : option string)
    (jar : gmap string (string * gmap string string)) (cookie : string) :
  In ("Cookie", cookie) (req_headers (build_request self referrer payload jar)) <->
  In ("Cookie", cookie) (cookie_field self referrer (http_method payload) jar).
Proof.
  unfold build_request.
  destruct (truthy payload); cbn [req_headers];
    rewrite !in_app_iff; destruct referrer; simpl;
    intuition congruence.
Qed.

(** C3, as the code has it.  For a request to a host whose cookie in the
    jar has [samesite=lax], the Cookie header is attached iff there is no
    referrer, or the method is GET, or the request host equals the
    referrer's host. *)
Theorem lax_cookie_attached_iff (self : URL) (referrer : option URL)
    (payload : option string)
    (jar : gmap string (string * gmap string string))
    (h cookie : string) (params : gmap string string) :
  host self = Some h ->
  jar !! h = Some (cookie, params) ->
  params !! "samesite" = Some "lax" ->
  (In ("Cookie", cookie) (req_headers (build_request self referrer payload jar))
   <->
   referrer = None \/ http_method payload = "GET" \/
   exists r, referrer = Some r /\ host self = host r).
Proof.
  intros Hh Hjar Hlax. rewrite cookie_in_request.
  unfold cookie_field, allow_cookie. rewrite Hh. simpl. rewrite Hjar, Hlax. simpl.
  destruct referrer as [r|].
  - destruct (String.eqb (http_method payload) "GET") eqn:Hm; simpl.
    + apply String.eqb_eq in Hm. split; [intros _; right; left; exact Hm|].
      intros _. left. reflexivity.
    + apply String.eqb_neq in Hm. rewrite <- Hh.
      case_bool_decide as Hhost; simpl.
      * split; [|intros _; left; reflexivity].
        intros _. right. right. exists r. split; [reflexivity|exact Hhost].
      * split; [intros []|].
        intros [Hn|[Hg|(r' & [= <-] & Hr)]]; [discriminate|contradiction|contradiction].
  - split; [intros _; left; reflexivity|]. intros _. left. reflexivity.
Qed.

End CookieProps.

(** A cross-site form post: no referrer reaches the request, the method
    is POST, and the jar holds a lax cookie for the target host. *)
Module DemoCookie.
Import Py Net.

Definition bank : URL :=
  mkURL "https" "bank.test/transfer" (Some "bank.test") "/transfer"
        (Some 443) "ua".

Definition jar : gmap string (string * gmap string string) :=
  <["bank.test" := ("session=42", <["samesite" := "lax"]> ∅)]> ∅.

Definition payload : option string := Some "to=eve&amount=100".

End DemoCookie.

Module CookieWitness.
Import Py Net CookieProps DemoCookie.

(** The claim as stated fails here: the request is a POST without
    referrer, so neither "the method is GET" nor "the request host equals
    the referrer host" holds, and yet the cookie is sent. *)
Lemma lax_cookie_sent_on_post_without_referrer :
  ~ (In ("Cookie", "session=42")
        (req_headers (build_request bank None payload jar))
     <->
     http_method payload = "GET" \/
     exists r, (None : option URL) = Some r /\ host bank = host r).
Proof.
  intros [Hsent _].
  destruct Hsent as [Hget|(r & Hr & _)].
  - vm_compute. tauto.
  - discriminate Hget.
  - discriminate Hr.
Qed.

Lemma lax_cookie_attached_iff_witness :
  In ("Cookie", "session=42") (req_headers (build_request bank None payload jar))
  <->
  (None : option URL) = None \/ http_method payload = "GET" \/
  exists r, (None : option URL) = Some r /\ host bank = host r.
Proof.
  apply (lax_cookie_attached_iff bank None payload jar "bank.test"
           "session=42" (<["samesite" := "lax"]> ∅));
    reflexivity.
Defined.

End CookieWitness.

(** ** postMessage (js_context.py) *)
Module PostMessageProps.
Import Py Run host frame js_context.

(** C5, as the code has it.  [postMessage] returns without touching any
    frame, script context or queue, whatever the target and the target
    origin: no message event is dispatched even when the origin matches
    or is ["*"]. *)
Theorem postMessage_delivers_nothing `{Host} (self : JSContext) (frame : nat)
    (target_frame_id : Z) (message target_origin : string) (pg : Page) :
  postMessage self frame target_frame_id message target_origin pg = (Ok tt, pg).
Proof.
  unfold postMessage, _find_frame_by_id, mbind, gets, ret.
  destruct (frame.frame_id self =? target_frame_id)%Z.
  - destruct (objects pg !! frame ≫= js_context); [|reflexivity].
    destruct (negb _ && _); reflexivity.
  - destruct (find_in pg (frames pg) target_frame_id) as [tf|]; [|reflexivity].
    destruct (objects pg !! tf ≫= js_context); [|reflexivity].
    destruct (negb _ && _); reflexivity.
Qed.

End PostMessageProps.

(** ** Scrolling (tab.py, main_thread.py, browser.py) *)
Module ScrollProps.
Import Py Run Common Layout host frame tab main_thread.
Local Open Scope Q_scope.

Section Scroll.
Context `{Host} `{!Loader} `{Platform} `{Constants}.

(** The range the spec gives for the scroll offset:
    [0 <= scroll <= max(0, document_height - viewport_height)]. *)
Definition in_range (t : Tab) : Prop :=
  0 <= tab.scroll t /\ tab.scroll t <= Qmax 0 (get_max_y t - height t).

Lemma get_max_y_set_scroll (s : Q) (t : Tab) :
  get_max_y (set_scroll s t) = get_max_y t.
Proof. reflexivity. Qed.

Lemma scrolldown_in_range (t : Tab) :
  0 <= SCROLL_STEP -> 0 <= tab.scroll t ->
  in_range (snd (scrolldown t)).
Proof.
  intros Hstep Hs. unfold scrolldown, modify, in_range. cbn [snd].
  rewrite get_max_y_set_scroll. cbn [tab.scroll set_scroll height].
  split.
  - apply Q.min_glb; [lra|apply Q.le_max_l].
  - apply Q.le_min_r.
Qed.

Lemma scollup_in_range (t : Tab) :
  0 <= SCROLL_STEP -> in_range t -> in_range (snd (scollup t)).
Proof.
  intros Hstep [Hlo Hhi]. unfold scollup, modify. cbn [snd].
  destruct (Qle_bool (tab.scroll t) 0); [split; assumption|].
  unfold in_range. rewrite get_max_y_set_scroll.
  cbn [tab.scroll set_scroll height]. split.
  - apply Q.le_max_l.
  - apply Q.max_lub; [apply Q.le_max_l|]. lra.
Qed.

(** C1, as the code has it.  From a tab whose scroll offset lies in
    [[0, max(0, document_height - viewport_height)]], handling SCROLL_DOWN
    or SCROLL_UP leaves it in that range (the step being non-negative).
    Handling SCROLL_TO(s) stores [s] as it comes, unclamped; the clamp of
    wheel scrolling is applied by the UI thread, against the last commit,
    before it posts the event. *)
Theorem scroll_events_and_range (mt : MainThread) :
  0 <= SCROLL_STEP ->
  in_range (tab mt) ->
  (forall e, e = SCROLL_DOWN \/ e = SCROLL_UP ->
     fst (_handle_event e mt) = Ok tt /\
     in_range (tab (snd (_handle_event e mt)))) /\
  (forall s,
     fst (_handle_event (SCROLL_TO (Some s)) mt) = Ok tt /\
     tab.scroll (tab (snd (_handle_event (SCROLL_TO (Some s)) mt))) = s) /\
  (forall browser_height chrome_bottom commit wheel_y s,
     handle_scroll browser_height chrome_bottom (Some commit) wheel_y
       = Some (SCROLL_TO (Some s)) ->
     0 <= s /\
     s <= Qmax 0 (document_height commit - (browser_height - chrome_bottom))).
Proof.
  intros Hstep Hin. split; [|split].
  - intros e [->| ->].
    + split; [reflexivity|].
      apply (scrolldown_in_range (tab mt) Hstep (proj1 Hin)).
    + split; [reflexivity|].
      apply (scollup_in_range (tab mt) Hstep Hin).
  - intros s. split; reflexivity.
  - intros bh cb commit wy s. unfold handle_scroll. intros [= <-]. split.
    + apply Q.le_max_l.
    + apply Q.max_lub; [apply Q.le_max_l|apply Q.le_min_r].
Qed.

End Scroll.

End ScrollProps.

(** ** Redirects (frame.py) *)
Module RedirectProps.
Import Py Run Common Layout host frame.

Section Redirects.
Context `{Host} `{!Loader} `{Platform} `{Constants}.













End Redirects.

End RedirectProps.

(** ** A small site, for runs of the whole model *)
Module DemoSite.
Import Py Run Dom Common Layout host frame tab main_thread.
Local Open Scope Q_scope.

#[export] Instance constants : Constants := {|
  HSTEP := 13;
  VSTEP := 18;
  WIDTH := 800;
  HEIGHT := 200;
  SCROLL_STEP := 100;
|}.

(** Integer literals as floats; every glyph as wide as the font size;
    ascent the font size, descent a quarter of it. *)
#[export] Instance platform : Platform := {|
  float := fun s => inject_Z <$> int_of 10 s;
  measureText := fun f s => inject_Z (_size f * Z.of_nat (String.length s));
  fAscent := fun f => - inject_Z (_size f);
  fDescent := fun f => inject_Z (_size f) * (1 # 4);
  fLeading := fun _ => 0;
|}.

Definition inherited (font_size : string) : gmap string string :=
  <["font-size" := font_size]>
    (<["font-style" := "normal"%string]>
       (<["font-weight" := "normal"%string]> (<["color" := "black"%string]> ∅))).

Fixpoint brs (n : nat) : list Node :=
  match n with
  | O => []
  | S n' => Element (10 + n') "br" ∅ (inherited "16px") [] false :: brs n'
  end.

(** A styled document: a link to [/next] with the given text, set in the
    given font size, and eight line breaks. *)
Definition document_of (font_size text : string) : Node :=
  Element 0 "html" ∅ (inherited "16px")
    [Element 1 "body" ∅ (inherited "16px")
       (Element 2 "a" (<["href" := "/next"%string]> ∅) (inherited font_size)
          [Dom.Text 3 text (inherited font_size)] false
        :: brs 8) false] false.

(** The server: [/loop] redirects to itself, [/lost] redirects without
    a location, every other path is a page whose text is the path. *)
Definition serve (url : Net.URL) : Net.reply :=
  if String.eqb (Net.path url) "/loop"
  then Net.mkReply 302 (<["location" := "http://site.test/loop"%string]> ∅) "" None
  else if String.eqb (Net.path url) "/lost"
  then Net.mkReply 302 ∅ "" None
  else Net.mkReply 200 ∅ (Net.path url) None.

#[export] Instance host : Host := {|
  W := unit;
  Rule := unit;
  Task := unit;
  UserAgent_random := "ua";
  url_request := fun url _ _ w => (Ok (serve url), w);
  HTMLParser_parse := fun body => Ok (document_of "16px" body);
  cascade_priority := fun _ => 1%Z;
  style := fun node _ => Ok node;
  resolve_str := fun _ href => ("http://site.test" +:+ href)%string;
  quote := fun s => s;
|}.

(** Pages without style sheets, scripts or frames. *)
#[export] Instance loader : Loader := {|
  _load_stylesheets := fun _ _ => ret tt;
  _load_scripts := fun _ _ => ret tt;
  _load_iframes := fun _ _ => ret tt;
  js_dispatch_event := fun _ _ _ => ret false;
|}.

(** A new tab under chrome of height 100, on its main thread. *)
Definition start : MainThread :=
  mkMainThread (Tab_init 100 [] (network_thread.mkNetworkThread 0 tt)) 0 true [].

(** The events handled one after the other, up to the first exception. *)
Fixpoint handle_all (events : list Event) : M MainThread unit :=
  match events with
  | [] => ret tt
  | e :: events' => mbind (_handle_event e) (fun _ => handle_all events')
  end.

Definition after (events : list Event) : MainThread :=
  snd (handle_all events start).

Definition home : string := "http://site.test/".

End DemoSite.

(** ** History (tab.py) *)
Module HistoryProps.
Import Py Run Dom Common Layout host frame tab.
Local Open Scope Q_scope.

Section History.
Context `{Host} `{!Loader} `{Platform} `{Constants}.

(** Code of the tab that leaves its history and scroll offset alone. *)
Definition keeps {A} (m : M Tab A) : Prop :=
  forall t, history (snd (m t)) = history t /\
            tab.scroll (snd (m t)) = tab.scroll t.


Lemma keeps_raise {A} (e : exn) : keeps (raise (A:=A) e).
Proof. intros t. split; reflexivity. Qed.
















End History.

End HistoryProps.

(** ** Runs on the small site *)
Module DemoRuns.
Import Py Run Dom Common Layout host frame tab main_thread DemoSite.
Import ScrollProps RedirectProps HistoryProps.
Local Open Scope Q_scope.

(** After a page has been loaded, SCROLL_TO(1000) leaves the offset at
    1000, beyond [max(0, document_height - viewport_height)], which is
    104.75 for that page. *)
Lemma scroll_to_is_not_clamped :
  ~ in_range (tab (after [LOAD home None; SCROLL_TO (Some 1000)])).
Proof. intros [_ Hhi]. vm_compute in Hhi. apply Hhi. reflexivity. Qed.

Lemma scroll_events_and_range_witness :
  (forall e, e = SCROLL_DOWN \/ e = SCROLL_UP ->
     fst (_handle_event e (after [LOAD home None])) = Ok tt /\
     in_range (tab (snd (_handle_event e (after [LOAD home None]))))) /\
  (forall s,
     fst (_handle_event (SCROLL_TO (Some s)) (after [LOAD home None])) = Ok tt /\
     tab.scroll (tab (snd (_handle_event (SCROLL_TO (Some s))
                             (after [LOAD home None])))) = s) /\
  (forall browser_height chrome_bottom commit wheel_y s,
     handle_scroll browser_height chrome_bottom (Some commit) wheel_y
       = Some (SCROLL_TO (Some s)) ->
     0 <= s /\
     s <= Qmax 0 (document_height commit - (browser_height - chrome_bottom))).
Proof.
  apply (scroll_events_and_range (after [LOAD home None])).
  - vm_compute. discriminate.
  - split; vm_compute; discriminate.
Defined.














End DemoRuns.

(** ** Reading the body (http_base.py) *)
Module StringFacts.
Import Py.

Lemma append_cons (c : ascii) (a b : string) :
  String c a +:+ b = String c (a +:+ b).
Proof. reflexivity. Qed.

Lemma append_nil_r (a : string) : a +:+ "" = a.
Proof. induction a as [|c a IH]; [reflexivity|]. rewrite append_cons, IH. reflexivity. Qed.

Lemma append_assoc (a b c : string) : (a +:+ b) +:+ c = a +:+ (b +:+ c).
Proof.
  induction a as [|x a IH]; [reflexivity|]. rewrite !append_cons, IH. reflexivity.
Qed.

Lemma length_append (a b : string) :
  String.length (a +:+ b) = (String.length a + String.length b)%nat.
Proof.
  induction a as [|x a IH]; [reflexivity|]. rewrite append_cons. cbn. rewrite IH.
  reflexivity.
Qed.

(** Every character of [s] satisfies [p]. *)
Fixpoint all (p : ascii -> bool) (s : string) : bool :=
  match s with
  | EmptyString => true
  | String c s' => p c && all p s'
  end.

Lemma all_append (p : ascii -> bool) (a b : string) :
  all p (a +:+ b) = all p a && all p b.
Proof.
  induction a as [|x a IH]; [reflexivity|]. rewrite append_cons. cbn.
  rewrite IH, andb_assoc. reflexivity.
Qed.

Lemma all_impl (p q : ascii -> bool) (s : string) :
  (forall c, p c = true -> q c = true) -> all p s = true -> all q s = true.
Proof.
  intros Hpq. induction s as [|c s IH]; [reflexivity|]. cbn.
  intros [Hc Hs]%andb_true_iff. rewrite (Hpq c Hc), (IH Hs). reflexivity.
Qed.

Lemma rev_onto_append (s acc : string) : rev_onto s acc = rev s +:+ acc.
Proof.
  unfold rev. revert acc. induction s as [|c s IH]; intros acc; [reflexivity|].
  cbn [rev_onto]. rewrite IH, (IH (String c "")), append_assoc. reflexivity.
Qed.

Lemma rev_cons (c : ascii) (s : string) : rev (String c s) = rev s +:+ String c "".
Proof. unfold rev at 1. cbn [rev_onto]. apply rev_onto_append. Qed.

Lemma rev_append (a b : string) : rev (a +:+ b) = rev b +:+ rev a.
Proof.
  induction a as [|c a IH].
  - cbn. rewrite append_nil_r. reflexivity.
  - rewrite append_cons, !rev_cons, IH, append_assoc. reflexivity.
Qed.

Lemma rev_involutive (s : string) : rev (rev s) = s.
Proof.
  induction s as [|c s IH]; [reflexivity|].
  rewrite rev_cons, rev_append, IH. reflexivity.
Qed.

Lemma all_rev (p : ascii -> bool) (s : string) : all p (rev s) = all p s.
Proof.
  induction s as [|c s IH]; [reflexivity|].
  rewrite rev_cons, all_append, IH. cbn. rewrite andb_true_r, andb_comm.
  reflexivity.
Qed.

Definition not_space (c : ascii) : bool := negb (isspace c).

Lemma lstrip_not_space (s : string) : all not_space s = true -> lstrip s = s.
Proof.
  destruct s as [|c s]; [reflexivity|]. cbn. unfold not_space.
  destruct (isspace c); [discriminate|reflexivity].
Qed.

Lemma strip_clean (s : string) : all not_space s = true -> strip s = s.
Proof.
  intros Hs. unfold strip, rstrip. rewrite (lstrip_not_space s Hs).
  rewrite lstrip_not_space by (rewrite all_rev; exact Hs).
  apply rev_involutive.
Qed.

(** A line of text without white space strips to the text. *)
Lemma strip_line (s : string) :
  all not_space s = true ->
  strip (s +:+ Net.CRLF) = s.
Proof.
  intros Hs. destruct s as [|c s]; [reflexivity|].
  unfold strip, rstrip.
  assert (Hc : isspace c = false).
  { cbn in Hs. unfold not_space in Hs. destruct (isspace c); [discriminate|reflexivity]. }
  rewrite append_cons. cbn [lstrip]. rewrite Hc.
  rewrite <- append_cons, rev_append.
  change (rev Net.CRLF) with (String Net.LF (String Net.CR "")).
  rewrite !append_cons.
  change (lstrip (String Net.LF (String Net.CR ("" +:+ rev (String c s)))))
    with (lstrip (rev (String c s))).
  rewrite lstrip_not_space by (rewrite all_rev; exact Hs).
  apply rev_involutive.
Qed.

(** Reading a line that ends in CR LF. *)
Lemma readline_line (s rest : string) :
  all (fun c => negb (Ascii.eqb c Net.LF)) s = true ->
  readline (s +:+ Net.CRLF +:+ rest) = (s +:+ Net.CRLF, rest).
Proof.
  induction s as [|c s IH]; [reflexivity|].
  cbn [all]. intros [Hc Hs]%andb_true_iff.
  rewrite !append_cons. cbn [readline].
  apply negb_true_iff in Hc. unfold Net.LF in Hc. rewrite Hc, (IH Hs). reflexivity.
Qed.

Lemma take_append (a b : string) : take (String.length a) (a +:+ b) = a.
Proof.
  induction a as [|c a IH]; [destruct b; reflexivity|].
  rewrite append_cons. cbn. rewrite IH. reflexivity.
Qed.

Lemma drop_append (a b : string) : drop (String.length a) (a +:+ b) = b.
Proof.
  induction a as [|c a IH]; [reflexivity|]. rewrite append_cons. cbn. exact IH.
Qed.

Lemma length_take (n : nat) (s : string) :
  (n <= String.length s)%nat -> String.length (take n s) = n.
Proof.
  revert s. induction n as [|n IH]; intros s Hn; [reflexivity|].
  destruct s as [|c s]; cbn in *; [lia|]. rewrite IH by lia. reflexivity.
Qed.

Lemma length_drop (n : nat) (s : string) :
  (String.length (drop n s) <= String.length s)%nat.
Proof.
  revert s. induction n as [|n IH]; intros s; [reflexivity|].
  destruct s as [|c s]; cbn; [lia|]. specialize (IH s). lia.
Qed.

Lemma length_readline (s : string) :
  (String.length (snd (readline s)) <= String.length s)%nat /\
  (s <> "" -> String.length (snd (readline s)) < String.length s)%nat.
Proof.
  induction s as [|c s [IH1 IH2]]; [split; [reflexivity|congruence]|].
  cbn [readline]. destruct (Ascii.eqb c "010"); cbn.
  - split; [lia|intros _; lia].
  - destruct (readline s) as [l r]. cbn in *. split; [lia|intros _; lia].
Qed.

Lemma length_read (n : Z) (s : string) :
  (String.length (snd (read n s)) <= String.length s)%nat.
Proof.
  unfold read. destruct (n <? 0)%Z; cbn; [lia|apply length_drop].
Qed.

End StringFacts.

Module BodyProps.
Import Py Net StringFacts.

(** *** The chunked encoding, as the spec words it *)

(** The value of a hexadecimal numeral, most significant digit first. *)
Fixpoint hex_value (s : string) (acc : Z) : option Z :=
  match s with
  | EmptyString => Some acc
  | String c s' =>
      match digit_val 16 c with
      | Some d => hex_value s' (16 * acc + d)
      | None => None
      end
  end.

Definition hex_number (s : string) : option Z :=
  match s with
  | EmptyString => None
  | _ => hex_value s 0
  end.

(** One chunk on the wire: the size in hexadecimal, CR LF, that many
    bytes, CR LF. *)
Definition chunk (c : string * string) : string :=
  fst c +:+ CRLF +:+ snd c +:+ CRLF.

Definition well_formed (c : string * string) : Prop :=
  hex_number (fst c) = Some (Z.of_nat (String.length (snd c))) /\ snd c <> "".

(** The strings one after the other. *)
Fixpoint cat (ss : list string) : string :=
  match ss with
  | [] => ""
  | s :: ss' => s +:+ cat ss'
  end.

(** A chunked body: chunks, then a chunk of size zero. *)
Definition chunked (chunks : list (string * string)) (zero : string) : string :=
  cat (chunk <$> chunks) +:+ zero +:+ CRLF +:+ CRLF.

(** *** Hexadecimal digits *)
Lemma hexdigit_facts (c : ascii) (d : Z) :
  digit_val 16 c = Some d ->
  isspace c = false /\ Ascii.eqb c "010" = false /\ Ascii.eqb c "_" = false /\
  Ascii.eqb "x" c = false /\ Ascii.eqb "X" c = false.
Proof.
  destruct c as [[] [] [] [] [] [] [] []]; vm_compute; intros Hd;
    try discriminate Hd; repeat split.
Qed.

Lemma int_of_unsigned (line : string) (c : ascii) (d : Z) (s : string) :
  strip line = String c s ->
  digit_val 16 c = Some d ->
  int_of 16 line = unsigned_literal 16 (String c s).
Proof.
  intros Hline. unfold int_of. rewrite Hline. clear Hline.
  destruct c as [[] [] [] [] [] [] [] []]; vm_compute digit_val; intros Hd;
    try discriminate Hd; reflexivity.
Qed.

Lemma hex_value_chars (s : string) (acc n : Z) :
  hex_value s acc = Some n ->
  all not_space s = true /\
  all (fun c => negb (Ascii.eqb c LF)) s = true.
Proof.
  revert acc. induction s as [|c s IH]; intros acc; [split; reflexivity|].
  cbn [hex_value]. destruct (digit_val 16 c) as [d|] eqn:Hd; [|discriminate].
  intros Hs. destruct (IH _ Hs) as [H1 H2].
  destruct (hexdigit_facts c d Hd) as (Hsp & Hlf & _).
  cbn [all]. unfold not_space at 1. unfold LF at 1.
  rewrite Hsp, Hlf, H1, H2. split; reflexivity.
Qed.

Lemma digits_hex (s : string) (acc n : Z) :
  hex_value s acc = Some n -> digits 16 s (Some acc) true = Some n.
Proof.
  revert acc. induction s as [|c s IH]; intros acc; [trivial|].
  cbn [hex_value digits].
  destruct (digit_val 16 c) as [d|] eqn:Hd; [|discriminate].
  destruct (hexdigit_facts c d Hd) as (_ & _ & Hu & _). rewrite Hu.
  intros Hs. apply IH. exact Hs.
Qed.

(** [int(line, 16)] reads a hexadecimal numeral as its value. *)
Lemma int_of_hex (line s : string) (n : Z) :
  hex_number s = Some n -> strip line = s -> int_of 16 line = Some n.
Proof.
  intros Hn Hline.
  destruct s as [|c s]; [discriminate|]. cbn [hex_number hex_value] in Hn.
  destruct (digit_val 16 c) as [d|] eqn:Hd; [|discriminate].
  rewrite (int_of_unsigned line c d s Hline Hd).
  destruct (hexdigit_facts c d Hd) as (_ & _ & Hu & Hx & HX).
  unfold unsigned_literal.
  assert (Hprefix : startswith "0x" (String c s) || startswith "0X" (String c s)
                    = false).
  { cbn [startswith]. destruct (Ascii.eqb "0" c); [|reflexivity].
    destruct s as [|c2 s]; [reflexivity|]. cbn [hex_value] in Hn.
    destruct (digit_val 16 c2) as [d2|] eqn:Hd2; [|discriminate].
    destruct (hexdigit_facts c2 d2 Hd2) as (_ & _ & _ & Hx2 & HX2).
    rewrite Hx2, HX2. reflexivity. }
  rewrite Hprefix, andb_false_r.
  cbn [digits]. rewrite Hu, Hd. apply digits_hex. exact Hn.
Qed.

(** *** The chunk loop *)
Lemma read_chunks_zero (fuel : nat) (zero rest body_bytes : string) :
  hex_number zero = Some 0 ->
  read_chunks (S fuel) (zero +:+ CRLF +:+ CRLF +:+ rest) body_bytes
  = Ok (body_bytes, rest).
Proof.
  intros Hz.
  assert (Hchars := Hz). unfold hex_number in Hchars.
  destruct zero as [|c z] eqn:Ez; [discriminate|]. rewrite <- Ez in *.
  apply hex_value_chars in Hchars as [Hsp Hlf].
  cbn [read_chunks]. rewrite (readline_line zero _ Hlf).
  rewrite (strip_line zero Hsp).
  rewrite (int_of_hex _ zero 0 Hz (strip_clean zero Hsp)).
  reflexivity.
Qed.

Lemma read_chunks_chunk (fuel : nat) (c : string * string)
    (rest body_bytes : string) :
  well_formed c ->
  read_chunks (S fuel) (chunk c +:+ rest) body_bytes
  = read_chunks fuel rest (body_bytes +:+ snd c).
Proof.
  destruct c as [size data]. unfold well_formed, chunk. cbn [fst snd].
  intros [Hn Hdata].
  assert (Hchars := Hn). unfold hex_number in Hchars.
  destruct size as [|c z] eqn:Ez; [discriminate|]. rewrite <- Ez in *.
  apply hex_value_chars in Hchars as [Hsp Hlf].
  cbn [read_chunks]. rewrite !append_assoc.
  rewrite (readline_line size _ Hlf).
  rewrite (strip_line size Hsp).
  rewrite (int_of_hex _ size _ Hn (strip_clean size Hsp)).
  assert (Hnz : (Z.of_nat (String.length data) =? 0)%Z = false).
  { apply Z.eqb_neq. destruct data; [contradiction|cbn; lia]. }
  rewrite Hnz. unfold read.
  assert (Hneg : (Z.of_nat (String.length data) <? 0)%Z = false)
    by (apply Z.ltb_ge; lia).
  rewrite Hneg, Nat2Z.id, take_append, drop_append.
  change (readline (CRLF +:+ rest)) with (CRLF, rest).
  reflexivity.
Qed.

Lemma chunked_cons (c : string * string) (chunks : list (string * string))
    (zero : string) :
  chunked (c :: chunks) zero = chunk c +:+ chunked chunks zero.
Proof. unfold chunked. cbn [fmap list_fmap cat]. rewrite append_assoc. reflexivity. Qed.

Lemma read_chunks_chunked (chunks : list (string * string))
    (zero rest : string) (fuel : nat) (body_bytes : string) :
  Forall well_formed chunks ->
  hex_number zero = Some 0 ->
  (length chunks < fuel)%nat ->
  read_chunks fuel (chunked chunks zero +:+ rest) body_bytes
  = Ok (body_bytes +:+ cat (snd <$> chunks), rest).
Proof.
  intros Hwf Hz. revert fuel body_bytes.
  induction Hwf as [|c chunks Hc _ IH]; intros fuel body_bytes Hfuel.
  - destruct fuel as [|fuel]; [cbn in Hfuel; lia|].
    unfold chunked. cbn [fmap list_fmap cat].
    change ("" +:+ zero +:+ CRLF +:+ CRLF) with (zero +:+ CRLF +:+ CRLF).
    rewrite !append_assoc, append_nil_r. apply read_chunks_zero. exact Hz.
  - destruct fuel as [|fuel]; [cbn in Hfuel; lia|].
    rewrite chunked_cons, append_assoc, (read_chunks_chunk fuel c _ _ Hc).
    rewrite IH by (cbn in Hfuel; lia).
    cbn [fmap list_fmap cat]. rewrite append_assoc. reflexivity.
Qed.

Lemma length_chunked (chunks : list (string * string)) (zero rest : string) :
  (length chunks <= String.length (chunked chunks zero +:+ rest))%nat.
Proof.
  induction chunks as [|c chunks IH]; [cbn; lia|].
  rewrite chunked_cons, append_assoc, length_append. unfold chunk at 1.
  rewrite !length_append. rewrite length_append in IH.
  change (String.length CRLF) with 2%nat. cbn [length]. lia.
Qed.

(** C8.  With [Transfer-Encoding: chunked] the body is read chunk by
    chunk -- hexadecimal size, CR LF, that many bytes, CR LF -- up to the
    chunk of size zero, and is the concatenation of the chunks' bytes; so
    [5 CRLF Hello CRLF 0 CRLF CRLF] gives [Hello].  Without it, a
    Content-Length of [n] reads [n] bytes (all there is, if less); with
    neither, everything up to the end of the stream is the body. *)
Theorem body_is_read_as_framed (headers : gmap string string) (rest : string) :
  (forall chunks zero,
     lower (default "" (headers !! "transfer-encoding")) = "chunked" ->
     Forall well_formed chunks ->
     hex_number zero = Some 0 ->
     read_body headers (chunked chunks zero +:+ rest)
     = Ok (cat (snd <$> chunks), rest)) /\
  read_body (<["transfer-encoding" := "chunked"]> ∅)
    ("5" +:+ CRLF +:+ "Hello" +:+ CRLF +:+ "0" +:+ CRLF +:+ CRLF)
  = Ok ("Hello", "") /\
  (forall stream v n,
     lower (default "" (headers !! "transfer-encoding")) <> "chunked" ->
     headers !! "content-length" = Some v ->
     int_of 10 v = Some n ->
     (0 <= n)%Z ->
     read_body headers stream
     = Ok (take (Z.to_nat n) stream, drop (Z.to_nat n) stream) /\
     ((Z.to_nat n <= String.length stream)%nat ->
      String.length (take (Z.to_nat n) stream) = Z.to_nat n)) /\
  (forall stream,
     lower (default "" (headers !! "transfer-encoding")) <> "chunked" ->
     headers !! "content-length" = None ->
     read_body headers stream = Ok (stream, "")).
Proof.
  split; [|split; [|split]].
  - intros chunks zero Hte Hwf Hz. unfold read_body. rewrite Hte.
    change (String.eqb "chunked" "chunked") with true. cbv iota.
    rewrite (read_chunks_chunked chunks zero rest _ "" Hwf Hz).
    + reflexivity.
    + pose proof (length_chunked chunks zero rest). lia.
  - reflexivity.
  - intros stream v n Hte Hcl Hn Hpos. unfold read_body.
    apply String.eqb_neq in Hte. rewrite Hte, Hcl, Hn. unfold read.
    assert (Hneg : (n <? 0)%Z = false) by (apply Z.ltb_ge; lia).
    rewrite Hneg. split; [reflexivity|apply length_take].
  - intros stream Hte Hcl. unfold read_body.
    apply String.eqb_neq in Hte. rewrite Hte, Hcl. reflexivity.
Qed.

(** The chunk loop never runs out of the turns it is given: what it
    returns does not depend on [fuel] once that exceeds the length of
    the stream. *)
Lemma read_chunks_fuel (fuel fuel' : nat) (stream body_bytes : string) :
  (String.length stream < fuel)%nat -> (String.length stream < fuel')%nat ->
  read_chunks fuel stream body_bytes = read_chunks fuel' stream body_bytes.
Proof.
  revert fuel' stream body_bytes.
  induction fuel as [|fuel IH]; intros fuel' stream body_bytes Hf Hf'; [lia|].
  destruct fuel' as [|fuel']; [lia|]. cbn [read_chunks].
  destruct (length_readline stream) as [Hle Hlt].
  destruct (readline stream) as [line r1] eqn:Hline. cbn [snd] in Hle, Hlt.
  destruct stream as [|c stream].
  { cbn in Hline. injection Hline as <- <-. reflexivity. }
  assert (Hr1 : (String.length r1 < String.length (String c stream))%nat)
    by (apply Hlt; discriminate).
  destruct (int_of 16 (strip line)) as [chunk_size|]; [|reflexivity].
  destruct (chunk_size =? 0)%Z; [reflexivity|].
  pose proof (length_read chunk_size r1) as Hread.
  destruct (read chunk_size r1) as [chunk_data r2]. cbn [snd] in Hread.
  destruct (length_readline r2) as [Hle2 _].
  destruct (readline r2) as [l3 r3]. cbn [snd] in Hle2.
  apply IH; lia.
Qed.

End BodyProps.

(** A server that answers in chunks. *)
Module DemoChunked.
Import Py Net.

Definition answer : string :=
  "HTTP/1.1 200 OK" +:+ CRLF +:+
  "Transfer-Encoding: chunked" +:+ CRLF +:+
  CRLF +:+
  "5" +:+ CRLF +:+ "Hello" +:+ CRLF +:+ "0" +:+ CRLF +:+ CRLF.

Definition world : World := {|
  connect := fun _ _ _ => None;
  respond := fun _ _ => answer;
  gunzip := fun b => Ok b;
  decode_ignore := fun b => b;
|}.

End DemoChunked.

Module BodyWitness.
Import Py Run Net StringFacts BodyProps.

Lemma body_is_read_as_framed_witness :
  read_body (<["transfer-encoding" := "Chunked"]> ∅)
    (chunked [("5", "Hello"); ("B", ", big world")] "00" +:+ "HTTP/1.1 200 OK")
  = Ok (cat ["Hello"; ", big world"], "HTTP/1.1 200 OK") /\
  (read_body (<["content-length" := "5"]> ∅) "Hello, world"
   = Ok (take (Z.to_nat 5) "Hello, world", drop (Z.to_nat 5) "Hello, world") /\
   ((Z.to_nat 5 <= String.length "Hello, world")%nat ->
    String.length (take (Z.to_nat 5) "Hello, world") = Z.to_nat 5)) /\
  read_body ∅ "Hello, world" = Ok ("Hello, world", "").
Proof.
  split; [|split].
  - destruct (body_is_read_as_framed (<["transfer-encoding" := "Chunked"]> ∅)
                "HTTP/1.1 200 OK") as (Hchunked & _).
    apply Hchunked.
    + reflexivity.
    + repeat constructor; discriminate.
    + reflexivity.
  - destruct (body_is_read_as_framed (<["content-length" := "5"]> ∅) "")
      as (_ & _ & Hlength & _).
    apply (Hlength "Hello, world" "5" 5%Z).
    + discriminate.
    + reflexivity.
    + reflexivity.
    + lia.
  - destruct (body_is_read_as_framed ∅ "") as (_ & _ & _ & Heof).
    apply Heof.
    + discriminate.
    + reflexivity.
Defined.

(** The same through the whole client: the chunked answer of the spec's
    scenario comes back from [HTTPSURL.request] with body [Hello]. *)
Lemma chunked_answer_end_to_end :
  body <$> match fst (HTTPSURL_request (H:=DemoChunked.world) 0 1 DemoServer.url
                        None None DemoServer.fresh) with
           | Ok r => Some r
           | Raise _ => None
           end
  = Some "Hello".
Proof. reflexivity. Qed.

End BodyWitness.

(** ** Layout (block_layout.py, line_layout.py, text_layout.py, document_layout.py) *)
Module LayoutProps.
Import Py Dom Common Layout.
Local Open Scope Q_scope.

(** Induction on a document tree: the children of an element have the
    property before the element does. *)
Fixpoint Node_induction (P : Node -> Prop)
    (HText : forall i text sty, P (Dom.Text i text sty))
    (HElement : forall i tag attrs sty cs foc,
        Forall P cs -> P (Element i tag attrs sty cs foc))
    (n : Node) : P n :=
  match n with
  | Dom.Text i text sty => HText i text sty
  | Element i tag attrs sty cs foc =>
      HElement i tag attrs sty cs foc
        ((fix go (cs : list Node) : Forall P cs :=
            match cs with
            | [] => @List.Forall_nil _ P
            | c :: cs' =>
                @List.Forall_cons _ P c cs' (Node_induction P HText HElement c) (go cs')
            end) cs)
  end.

(** The boxes of a layout tree, as [tree_to_list] lists them. *)
Definition boxes (b : Box) : list Box := tab.box_tree_to_list b.

Lemma boxes_eq (b : Box) :
  boxes b = b :: concat (boxes <$> box_children b).
Proof.
  unfold boxes.
  assert (Hgo : forall cs,
    (fix go (cs : list Box) : list Box :=
       match cs with
       | [] => []
       | c :: cs' => (tab.box_tree_to_list c ++ go cs')%list
       end) cs = concat (tab.box_tree_to_list <$> cs)).
  { induction cs as [|c cs IH]; [reflexivity|]. cbn. rewrite IH. reflexivity. }
  destruct b; cbn [tab.box_tree_to_list box_children]; rewrite ?Hgo; reflexivity.
Qed.

(** [P] holds of every box of the tree. *)
Definition everywhere (P : Box -> Prop) (b : Box) : Prop :=
  forall b', In b' (boxes b) -> P b'.

Lemma everywhere_intro (P : Box -> Prop) (b : Box) :
  P b -> Forall (everywhere P) (box_children b) -> everywhere P b.
Proof.
  intros Hb Hcs b' Hin. rewrite boxes_eq in Hin. destruct Hin as [<-|Hin]; [exact Hb|].
  apply in_concat in Hin as (l & Hl & Hb').
  apply in_map_iff in Hl as (c & <- & Hc).
  rewrite Forall_forall in Hcs. apply (Hcs c); [|exact Hb'].
  apply list_elem_of_In. exact Hc.
Qed.


(** Take apart a successful [bind]. *)
Tactic Notation "bind_ok" hyp(H) ident(x) ident(Hx) :=
  match type of H with
  | bind ?r _ = Ok _ =>
      destruct r as [x|] eqn:Hx; [cbn [bind] in H|discriminate H]
  end.

Section Invariants.
Context `{Platform} `{Constants}.

(** The height of a block container is the sum of its children's. *)
Definition heights_add_up (b : Box) : Prop :=
  match b with
  | DocumentLayout _ _ _ _ height children
  | BlockLayout _ _ _ _ height children =>
      height == sum (box_height <$> children)
  | _ => True
  end.

(** The font of a word is the one [TextLayout.layout] computes from the
    style of its node. *)
Definition font_from_style (b : Box) : Prop :=
  match b with
  | TextLayout node _ font _ _ _ _ => TextLayout_font node = Ok font
  | _ => True
  end.

Definition sound (b : Box) : Prop := heights_add_up b /\ font_from_style b.

Definition placed_font (p : Placed) : Prop :=
  match p_inline p with
  | Word node _ => TextLayout_font node = Ok (p_font p)
  | Input _ => True
  end.

Lemma layout_inlines_fonts (x : Q) (previous : option Placed)
    (items : list Inline) (placed : list Placed) :
  layout_inlines x previous items = Ok placed -> Forall placed_font placed.
Proof.
  revert previous placed.
  induction items as [|i items IH]; intros previous placed Hl; cbn in Hl.
  - injection Hl as <-. constructor.
  - bind_ok Hl p Hp. bind_ok Hl ps Hps. injection Hl as <-.
    constructor; [|exact (IH _ _ Hps)].
    destruct i as [node word|node]; cbn in Hp.
    + unfold TextLayout_layout in Hp. bind_ok Hp font Hf.
      injection Hp as <-. exact Hf.
    + unfold InputLayout_layout in Hp. bind_ok Hp font Hf.
      injection Hp as <-. exact I.
Qed.

Lemma Forall_list_fmap {A B} (P : B -> Prop) (f : A -> B) (l : list A) :
  Forall (fun a => P (f a)) l -> Forall P (list_fmap A B f l).
Proof. induction 1; constructor; assumption. Qed.

Lemma place_sound (w : Placed) (y : Q) :
  placed_font w ->
  everywhere sound
    match p_inline w with
    | Word n word => TextLayout n word (p_font w) (p_x w) y (p_width w) (p_height w)
    | Input n => InputLayout n (p_font w) (p_x w) y (p_width w) (p_height w)
    end.
Proof.
  unfold placed_font. intros Hw.
  destruct (p_inline w) as [n word|n];
    (apply everywhere_intro; [split; [exact I|]|constructor]).
  - exact Hw.
  - exact I.
Qed.

Lemma LineLayout_layout_sound (node : Node) (x parent_y width : Q)
    (previous : option Box) (items : list Inline) (b : Box) :
  LineLayout_layout node x parent_y width previous items = Ok b ->
  everywhere sound b.
Proof.
  unfold LineLayout_layout. intros Hl. bind_ok Hl placed Hp.
  pose proof (layout_inlines_fonts _ _ _ _ Hp) as Hfonts.
  destruct placed as [|p ps]; injection Hl as <-.
  - apply everywhere_intro; [split; exact I|constructor].
  - apply everywhere_intro; [split; exact I|].
    cbn [box_children]. constructor.
    + apply place_sound. exact (Forall_inv Hfonts).
    + apply Forall_list_fmap.
      eapply Forall_impl; [exact (Forall_inv_tail Hfonts)|].
      intros w Hw. apply place_sound. exact Hw.
Qed.

Lemma layout_lines_sound (node : Node) (x parent_y width : Q)
    (previous : option Box) (lines : list (list Inline)) (bs : list Box) :
  layout_lines node x parent_y width previous lines = Ok bs ->
  Forall (everywhere sound) bs.
Proof.
  revert previous bs.
  induction lines as [|items lines IH]; intros previous bs Hl; cbn in Hl.
  - injection Hl as <-. constructor.
  - bind_ok Hl b Hb. bind_ok Hl bs' Hbs. injection Hl as <-.
    constructor; [exact (LineLayout_layout_sound _ _ _ _ _ _ _ Hb)|].
    exact (IH _ _ Hbs).
Qed.

Lemma inline_block_sound (node : Node) (x y width : Q) (b : Box) :
  bind (recurse x width node (new_line [])) (fun lines =>
  bind (layout_lines node x y width None lines) (fun children =>
  Ok (BlockLayout node x y width (sum (box_height <$> children)) children)))
  = Ok b ->
  everywhere sound b.
Proof.
  intros Hb. bind_ok Hb lines Hr. bind_ok Hb children Hc. injection Hb as <-.
  apply everywhere_intro.
  - split; [cbn; reflexivity|exact I].
  - exact (layout_lines_sound _ _ _ _ _ _ _ Hc).
Qed.

Lemma BlockLayout_layout_sound (node : Node) :
  forall (parent_x parent_y parent_width : Q) (previous : option Box) (b : Box),
    BlockLayout_layout node parent_x parent_y parent_width previous = Ok b ->
    everywhere sound b.
Proof.
  induction node as [i text sty|i tag attrs sty cs foc IH] using Node_induction;
    intros px py pw previous b Hb.
  - cbn [BlockLayout_layout] in Hb. exact (inline_block_sound _ _ _ _ _ Hb).
  - cbn [BlockLayout_layout] in Hb.
    destruct (layout_mode (Element i tag attrs sty cs foc));
      [exact (inline_block_sound _ _ _ _ _ Hb)|].
    bind_ok Hb children Hc. injection Hb as <-.
    apply everywhere_intro; [split; [cbn; reflexivity|exact I]|].
    cbn [box_children]. revert Hc. generalize (@None Box) as prev.
    generalize (match previous with
                | Some p => box_y p + box_height p
                | None => py
                end) as y.
    revert children.
    induction IH as [|c cs Hc _ IHcs]; intros children y prev Hgo.
    + injection Hgo as <-. constructor.
    + bind_ok Hgo next Hn. bind_ok Hgo rest Hr. injection Hgo as <-.
      constructor; [exact (Hc _ _ _ _ _ Hn)|].
      exact (IHcs _ _ _ Hr).
Qed.

Lemma DocumentLayout_layout_sound (node : Node) (width : Q) (doc : Box) :
  DocumentLayout_layout node width = Ok doc -> everywhere sound doc.
Proof.
  unfold DocumentLayout_layout. intros Hd. bind_ok Hd child Hc.
  injection Hd as <-.
  apply everywhere_intro.
  - split; [|exact I]. cbn. unfold sum. cbn. ring.
  - constructor; [|constructor].
    exact (BlockLayout_layout_sound _ _ _ _ _ _ Hc).
Qed.

(** C9.  In the layout of a document, the height of every
    [BlockLayout] -- in block mode or in inline mode -- and of the
    [DocumentLayout] is the sum of the heights of its children. *)
Theorem container_height_is_sum (node : Node) (width : Q) (doc : Box) :
  DocumentLayout_layout node width = Ok doc ->
  forall b, In b (boxes doc) ->
    match b with
    | DocumentLayout _ _ _ _ height children
    | BlockLayout _ _ _ _ height children =>
        height == sum (box_height <$> children)
    | _ => True
    end.
Proof.
  intros Hd b Hb.
  exact (proj1 (DocumentLayout_layout_sound node width doc Hd b Hb)).
Qed.




End Invariants.



End LayoutProps.

Module LayoutWitness.
Import Py Dom Common Layout DemoSite LayoutProps.
Local Open Scope Q_scope.

(** A document of one paragraph with two words. *)
Definition words_node : Node := Dom.Text 2 "hello world" (inherited "16px").

Definition small : Node :=
  Element 0 "html" ∅ (inherited "16px")
    [Element 1 "p" ∅ (inherited "16px") [words_node] false] false.

(** Its layout at width 800. *)
Definition small_layout : Box :=
  Eval vm_compute in
    match DocumentLayout_layout small 800 with
    | Ok doc => doc
    | Raise _ => DocumentLayout small 0 0 0 0 []
    end.

Lemma small_is_laid_out : DocumentLayout_layout small 800 = Ok small_layout.
Proof. vm_compute. reflexivity. Qed.

(** The paragraph: a block in inline mode, with one line. *)
Definition paragraph : Box :=
  Eval vm_compute in nth 2 (boxes small_layout) small_layout.

(** The second word. *)
Definition world : Box :=
  Eval vm_compute in nth 5 (boxes small_layout) small_layout.

Lemma container_height_is_sum_witness :
  box_height small_layout == sum (box_height <$> box_children small_layout) /\
  box_height paragraph == sum (box_height <$> box_children paragraph).
Proof.
  split.
  - apply (container_height_is_sum small 800 small_layout small_is_laid_out
             small_layout).
    left. reflexivity.
  - apply (container_height_is_sum small 800 small_layout small_is_laid_out
             paragraph).
    do 2 right. left. reflexivity.
Defined.



End LayoutWitness.
